(** * useDragSelection: a shallow embedding of src/useDragSelection.js

    The hook keeps seven pieces of React state, three mouse handlers, one
    registration function and one effect.  Every function below is named
    after the JavaScript function it embeds.

    Conventions of the embedding.
    - Coordinates are JavaScript numbers; they are modelled as [Z]
      (the pointer coordinates of a mouse event are integers, and [0] is the
      only falsy coordinate that matters to [||]).
    - A render closes over a snapshot of the state.  A handler therefore
      takes the snapshot [r] it was created in and returns the list of
      things it did (state setter calls, [preventDefault], the
      [onSelectionChange] callback, [observer.observe]) together with its
      completion: a normal return or an uncaught [TypeError].
    - [useState] setters are applied afterwards, in order, to the current
      state; [setItems] is the only one called with an updater function.
    - A DOM element is an identity ([nat]); its [getBoundingClientRect()] is
      read from the layout of the page at the time of the call. *)

From Stdlib Require Import ZArith Lia Bool.
From stdpp Require Import base decidable list gmap sets strings.

Local Open Scope Z_scope.

(** ** Data *)

Module Point.
Record t : Type := mk { x : Z; y : Z }.
End Point.

(** The object literal built by [calculateSelectionBox]; a [DOMRect] is read
    through the same four properties by [boxesIntersect]. *)
Module Box.
Record t : Type := mk { left : Z; top : Z; width : Z; height : Z }.
End Box.

(** The object literal returned by [getTargetMargin]. *)
Module Margin.
Record t : Type := mk { top : Z; left : Z; bottom : Z; right : Z }.
End Margin.

(** The object literal returned by [isWithinTarget]. *)
Module Within.
Record t : Type := mk { left : bool; top : bool; right : bool; bottom : bool }.
End Within.

(** [target.current.getBoundingClientRect()], as far as [getTargetMargin]
    reads it. *)
Module TargetRect.
Record t : Type := mk { top : Z; left : Z; bottom : Z; right : Z }.
End TargetRect.

(** The properties of a mouse event the handlers read. *)
Module MouseEvent.
Record t : Type :=
  mk { pageX : Z; pageY : Z; clientX : Z; clientY : Z; buttons : Z }.
End MouseEvent.

(** A DOM element, by identity. *)
Definition Item : Type := nat.

(** What a render can see of the page. *)
Record Page : Type := mkPage {
  target_current : option TargetRect.t;   (* targetRef.current, measured *)
  scrollX : Z;                            (* window.scrollX *)
  scrollY : Z;                            (* window.scrollY *)
  getBoundingClientRect : Item -> Box.t   (* item.getBoundingClientRect() *)
}.

(** The [useState] cells of [useDragSelection]. *)
Record State : Type := mkState {
  dragStart : option Point.t;
  dragEnd : option Point.t;
  isMouseDown : bool;
  selectionBox : option Box.t;
  showSelection : bool;
  selectedIndex : gset nat;
  items : list Item
}.

(** The first render: the initial values given to [useState]. *)
Definition initialState : State :=
  {| dragStart := None; dragEnd := None; isMouseDown := false;
     selectionBox := None; showSelection := false;
     selectedIndex := ∅; items := [] |}.

(** ** Actions of a handler and their completion *)

Inductive Action : Type :=
  | PreventDefault                              (* evt.preventDefault() *)
  | SetDragStart (v : option Point.t)
  | SetDragEnd (v : option Point.t)
  | SetIsMouseDown (v : bool)
  | SetSelectionBox (v : option Box.t)
  | SetShowSelection (v : bool)
  | SetSelectedIndex (v : gset nat)
  | SetItemsAppend (item : Item)                (* setItems(items => [...items, item]) *)
  | Observe (item : Item)                       (* observer.observe(item) *)
  | OnSelectionChange (v : gset nat).           (* the caller's callback *)

Inductive Completion (A : Type) : Type :=
  | Returns (a : A)
  | TypeError.
Arguments Returns {A} a.
Arguments TypeError {A}.

(** A computation: the actions performed so far, and how it completed. *)
Definition Run (A : Type) : Type := list Action * Completion A.

Definition ret {A} (a : A) : Run A := ([], Returns a).

Definition bind {A B} (k : A -> Run B) (m : Run A) : Run B :=
  match m with
  | (w, Returns a) => let '(w', c) := k a in (w ++ w', c)
  | (w, TypeError) => (w, TypeError)
  end.

#[global] Instance Run_ret : MRet Run := @ret.
#[global] Instance Run_bind : MBind Run := @bind.

Definition act (a : Action) : Run unit := ([a], Returns tt).

(** Reading a property of [null] or [undefined]. *)
Definition throwTypeError {A} : Run A := ([], TypeError).

Definition deref {A} (o : option A) : Run A :=
  match o with
  | Some a => mret a
  | None => throwTypeError
  end.

Definition performed {A} (m : Run A) : list Action := fst m.
Definition completion {A} (m : Run A) : Completion A := snd m.

(** One setter call applied to the state. *)
Definition applyAction (s : State) (a : Action) : State :=
  match a with
  | SetDragStart v =>
      {| dragStart := v; dragEnd := dragEnd s; isMouseDown := isMouseDown s;
         selectionBox := selectionBox s; showSelection := showSelection s;
         selectedIndex := selectedIndex s; items := items s |}
  | SetDragEnd v =>
      {| dragStart := dragStart s; dragEnd := v; isMouseDown := isMouseDown s;
         selectionBox := selectionBox s; showSelection := showSelection s;
         selectedIndex := selectedIndex s; items := items s |}
  | SetIsMouseDown v =>
      {| dragStart := dragStart s; dragEnd := dragEnd s; isMouseDown := v;
         selectionBox := selectionBox s; showSelection := showSelection s;
         selectedIndex := selectedIndex s; items := items s |}
  | SetSelectionBox v =>
      {| dragStart := dragStart s; dragEnd := dragEnd s; isMouseDown := isMouseDown s;
         selectionBox := v; showSelection := showSelection s;
         selectedIndex := selectedIndex s; items := items s |}
  | SetShowSelection v =>
      {| dragStart := dragStart s; dragEnd := dragEnd s; isMouseDown := isMouseDown s;
         selectionBox := selectionBox s; showSelection := v;
         selectedIndex := selectedIndex s; items := items s |}
  | SetSelectedIndex v =>
      {| dragStart := dragStart s; dragEnd := dragEnd s; isMouseDown := isMouseDown s;
         selectionBox := selectionBox s; showSelection := showSelection s;
         selectedIndex := v; items := items s |}
  | SetItemsAppend item =>
      {| dragStart := dragStart s; dragEnd := dragEnd s; isMouseDown := isMouseDown s;
         selectionBox := selectionBox s; showSelection := showSelection s;
         selectedIndex := selectedIndex s; items := items s ++ [item] |}
  | PreventDefault | Observe _ | OnSelectionChange _ => s
  end.

Definition applyActions (s : State) (w : list Action) : State :=
  fold_left applyAction w s.

(** The sets handed to [onSelectionChange], in call order. *)
Definition notifications (w : list Action) : list (gset nat) :=
  omap (fun a => match a with OnSelectionChange v => Some v | _ => None end) w.

(** ** Geometry *)

(** [getTargetMargin(target)]: [undefined] when [target.current] is not set. *)
Definition getTargetMargin (p : Page) : option Margin.t :=
  match target_current p with
  | None => None
  | Some boundingBox =>
      Some {| Margin.top := TargetRect.top boundingBox + scrollY p;
              Margin.left := TargetRect.left boundingBox + scrollX p;
              Margin.bottom := TargetRect.bottom boundingBox + scrollY p;
              Margin.right := TargetRect.right boundingBox + scrollX p |}
  end.

(** [calculateSelectionBox(start, end)].  [left] and [top] are read from the
    [dragStart] and [dragEnd] of the enclosing render [r], [width] and
    [height] from the two parameters. *)
Definition calculateSelectionBox (r : State) (start end_ : Point.t) : Run Box.t :=
  ds ← deref (dragStart r);
  de ← deref (dragEnd r);
  mret {| Box.left := Z.min (Point.x ds) (Point.x de);
         Box.top := Z.min (Point.y ds) (Point.y de);
         Box.width := Z.abs (Point.x start - Point.x end_);
         Box.height := Z.abs (Point.y start - Point.y end_) |}.

(** [boxesIntersect(boxA, boxB)]. *)
Definition boxesIntersect (boxA boxB : Box.t) : bool :=
  (Box.left boxA <=? Box.left boxB + Box.width boxB) &&
  (Box.left boxA + Box.width boxA >=? Box.left boxB) &&
  (Box.top boxA <=? Box.top boxB + Box.height boxB) &&
  (Box.top boxA + Box.height boxA >=? Box.top boxB).

(** [isWithinTarget(pageX, pageY, margin)]; reading [margin.left] of an
    [undefined] margin throws. *)
Definition isWithinTarget (pageX pageY : Z) (margin : option Margin.t) : Run Within.t :=
  m ← deref margin;
  mret {| Within.left := pageX - Margin.left m >=? 0;
         Within.top := pageY - Margin.top m >=? 0;
         Within.right := Margin.right m - pageX >=? 0;
         Within.bottom := Margin.bottom m - pageY >=? 0 |}.

(** [Object.values(w).every(point => point === true)]. *)
Definition everyTrue (w : Within.t) : bool :=
  forallb (fun point => Bool.eqb point true)
    [Within.left w; Within.top w; Within.right w; Within.bottom w].

(** ** The hook's functions *)

(** [resetSelection()]. *)
Definition resetSelection : Run unit :=
  act (SetDragStart None);;
  act (SetDragEnd None);;
  act (SetSelectedIndex ∅).

(** [onMouseUp(evt)]. *)
Definition onMouseUp (evt : MouseEvent.t) : Run unit :=
  act PreventDefault;;
  act (SetShowSelection false);;
  act (SetSelectionBox None);;
  act (SetIsMouseDown false);;
  resetSelection.

(** [onMouseDown(evt)], in a render whose margin is [margin]. *)
Definition onMouseDown (margin : option Margin.t) (evt : MouseEvent.t) : Run unit :=
  act PreventDefault;;
  within ← isWithinTarget (MouseEvent.pageX evt) (MouseEvent.pageY evt) margin;
  let isValidStart := everyTrue within in
  if negb isValidStart then mret tt
  else
    resetSelection;;
    act (SetShowSelection true);;
    act (SetIsMouseDown true);;
    act (SetDragStart
           (Some {| Point.x := MouseEvent.pageX evt; Point.y := MouseEvent.pageY evt |})).

(** [a || b] where [a] is a number or [undefined]: [0] and [undefined] are
    falsy. *)
Definition orElse (a : option Z) (b : Z) : Z :=
  match a with
  | Some v => if v =? 0 then b else v
  | None => b
  end.

(** [onMouseMove(evt)], in the render [r] whose margin is [margin]. *)
Definition onMouseMove (margin : option Margin.t) (r : State)
    (evt : MouseEvent.t) : Run unit :=
  act PreventDefault;;
  if negb (isMouseDown r) then mret tt
  else
    let isButtonPressed := negb (MouseEvent.buttons evt =? 0) in
    if negb isButtonPressed then onMouseUp evt
    else
      let tempPoint :=
        {| Point.x := orElse (Point.x <$> dragEnd r) (MouseEvent.clientX evt);
           Point.y := orElse (Point.y <$> dragEnd r) (MouseEvent.clientY evt) |} in
      _isWithinRange ←
        isWithinTarget (MouseEvent.clientX evt) (MouseEvent.clientY evt) margin;
      let tempPoint :=
        if Within.top _isWithinRange && Within.bottom _isWithinRange
        then {| Point.x := Point.x tempPoint; Point.y := MouseEvent.clientY evt |}
        else tempPoint in
      let tempPoint :=
        if Within.left _isWithinRange && Within.right _isWithinRange
        then {| Point.x := MouseEvent.clientX evt; Point.y := Point.y tempPoint |}
        else tempPoint in
      act (SetDragEnd (Some tempPoint)).

(** [addItem(item)], in the render [r]: [items.includes] reads the render's
    [items], the updater given to [setItems] appends to the current ones.
    [None] is a [null] or [undefined] argument. *)
Definition addItem (r : State) (item : option Item) : Run unit :=
  match item with
  | None => mret tt
  | Some it =>
      if bool_decide (it ∈ items r) then mret tt
      else act (SetItemsAppend it);; act (Observe it)
  end.

(** [selectedIndex.has(_i)]. *)
Definition has (s : gset nat) (i : nat) : bool := bool_decide (i ∈ s).

(** The body of [items.forEach((item, _i) => ...)] from index [_i] on; the
    array holds DOM elements only, so its [if (!item) return] never fires. *)
Fixpoint forEachItem (p : Page) (selectionBox : Box.t) (selectedIndex : gset nat)
    (_i : nat) (its : list Item) (newIndexes : gset nat) : gset nat :=
  match its with
  | [] => newIndexes
  | item :: rest =>
      let itemBox := getBoundingClientRect p item in
      let isIntersecting := boxesIntersect selectionBox itemBox in
      let newIndexes :=
        if isIntersecting && negb (has selectedIndex _i) then {[ _i ]} ∪ newIndexes
        else if negb isIntersecting && has selectedIndex _i then newIndexes ∖ {[ _i ]}
        else newIndexes in
      forEachItem p selectionBox selectedIndex (S _i) rest newIndexes
  end.

(** The effect with dependencies [[dragStart, dragEnd]], run after the
    render [r] on the page [p].  It returns at once unless both points are
    set ([items] is an array, so [!items] is never true). *)
Definition selectionEffect (p : Page) (r : State) : Run unit :=
  match dragStart r, dragEnd r with
  | Some start, Some end_ =>
      selectionBox ← calculateSelectionBox r start end_;
      let newIndexes :=
        forEachItem p selectionBox (selectedIndex r) 0%nat (items r) (selectedIndex r) in
      act (SetSelectedIndex newIndexes);;
      act (OnSelectionChange newIndexes);;
      act (SetSelectionBox (Some selectionBox))
  | _, _ => mret tt
  end.

(** ** The render cycle *)

Inductive Event : Type :=
  | MouseDown (evt : MouseEvent.t)
  | MouseMove (evt : MouseEvent.t)
  | MouseUp (evt : MouseEvent.t)
  | AddItems (args : list (option Item)).  (* calls of one render's [addItem] *)

(** The handler of the render [r] on the page [p], where
    [margin = getTargetMargin(targetRef)]. *)
Definition handle (p : Page) (r : State) (e : Event) : Run unit :=
  let margin := getTargetMargin p in
  match e with
  | MouseDown evt => onMouseDown margin evt
  | MouseMove evt => onMouseMove margin r evt
  | MouseUp evt => onMouseUp evt
  | AddItems args => foldr (fun item k => addItem r item;; k) (mret tt) args
  end.

(** Whether a setter of one of the effect's dependencies was called.  A
    setter called with [null] on a [null] cell leaves the dependency
    unchanged, but the effect returns at once on [null] anyway. *)
Definition touchesDeps (w : list Action) : bool :=
  existsb (fun a => match a with SetDragStart _ | SetDragEnd _ => true | _ => false end) w.

(** One event: the handler of the latest render runs, its setter calls are
    applied, and if a dependency was set the effect runs in the next render.
    Returns the new state and the sets given to [onSelectionChange]. *)
Definition step (p : Page) (s : State) (e : Event) : State * list (gset nat) :=
  let w := performed (handle p s e) in
  let s1 := applyActions s w in
  if touchesDeps w then
    let w' := performed (selectionEffect p s1) in
    (applyActions s1 w', notifications (w ++ w'))
  else (s1, notifications w).

Definition stateAfter (p : Page) (s : State) (e : Event) : State := fst (step p s e).
Definition notified (p : Page) (s : State) (e : Event) : list (gset nat) := snd (step p s e).

(** States the hook can be in: every event is handled by the latest render,
    on whatever page there is at that time. *)
Inductive reachable : State -> Prop :=
  | reachable_initial : reachable initialState
  | reachable_step p s e : reachable s -> reachable (stateAfter p s e).

(** A point of the closed rectangle [b]. *)
Definition covers (b : Box.t) (px py : Z) : Prop :=
  Box.left b <= px <= Box.left b + Box.width b /\
  Box.top b <= py <= Box.top b + Box.height b.

(** A point within all four bounds of [m]. *)
Definition inside (m : Margin.t) (px py : Z) : Prop :=
  Margin.left m <= px <= Margin.right m /\ Margin.top m <= py <= Margin.bottom m.

(** The four comparisons of [isWithinTarget] at the page coordinates of an
    event, taken together. *)
Definition inside_dec (m : Margin.t) (evt : MouseEvent.t) : bool :=
  (MouseEvent.pageX evt - Margin.left m >=? 0) &&
  (MouseEvent.pageY evt - Margin.top m >=? 0) &&
  (Margin.right m - MouseEvent.pageX evt >=? 0) &&
  (Margin.bottom m - MouseEvent.pageY evt >=? 0).

(** The state [onMouseUp] leaves behind: everything cleared but the items. *)
Definition cleared (its : list Item) : State :=
  {| dragStart := None; dragEnd := None; isMouseDown := false;
     selectionBox := None; showSelection := false;
     selectedIndex := ∅; items := its |}.

(** The elements a render's [addItem] appends for the calls [args]. *)
Fixpoint appended (r : State) (args : list (option Item)) : list Item :=
  match args with
  | [] => []
  | None :: rest => appended r rest
  | Some it :: rest =>
      if bool_decide (it ∈ items r) then appended r rest else it :: appended r rest
  end.

(** The rectangle spanned by two points: what [calculateSelectionBox]
    returns in the effect, where its arguments are the render's own
    [dragStart] and [dragEnd]. *)
Definition spanned (a b : Point.t) : Box.t :=
  {| Box.left := Z.min (Point.x a) (Point.x b);
     Box.top := Z.min (Point.y a) (Point.y b);
     Box.width := Z.abs (Point.x a - Point.x b);
     Box.height := Z.abs (Point.y a - Point.y b) |}.

(** The end point [onMouseMove] sets for an accepted move in the render [r]
    with margin [m]; see [onMouseMove_dragging]. *)
Definition nextEnd (m : Margin.t) (r : State) (evt : MouseEvent.t) : Point.t :=
  {| Point.x :=
       if (MouseEvent.clientX evt - Margin.left m >=? 0) &&
          (Margin.right m - MouseEvent.clientX evt >=? 0)
       then MouseEvent.clientX evt
       else orElse (Point.x <$> dragEnd r) (MouseEvent.clientX evt);
     Point.y :=
       if (MouseEvent.clientY evt - Margin.top m >=? 0) &&
          (Margin.bottom m - MouseEvent.clientY evt >=? 0)
       then MouseEvent.clientY evt
       else orElse (Point.y <$> dragEnd r) (MouseEvent.clientY evt) |}.

(** What holds of every state the hook can be in. *)
Record consistent (s : State) : Prop := {
  idle_cleared : isMouseDown s = false -> s = cleared (items s);
  dragging_started : isMouseDown s = true -> is_Some (dragStart s);
  selected_registered : forall i, i ∈ selectedIndex s -> (i < length (items s))%nat
}.

(** ** The rendered style and runs of events *)

(** The object [selectionStyles] of [useMemo]: its four fixed properties
    and, spread in when [selectionBox] is set, the rectangle's four. *)
Record Styles : Type := mkStyles {
  position : string;
  zIndex : Z;
  border : string;
  display : string;
  geometry : option Box.t   (* ...selectionBox *)
}.

(** The value of [selectionStyles] in the render [r]. *)
Definition selectionStyles (r : State) : Styles :=
  let selectionStyles :=
    {| position := "absolute"; zIndex := 100; border := "1px solid red";
       display := if showSelection r then "inline-block" else "none";
       geometry := None |} in
  match selectionBox r with
  | Some box =>
      {| position := position selectionStyles; zIndex := zIndex selectionStyles;
         border := border selectionStyles; display := display selectionStyles;
         geometry := Some box |}
  | None => selectionStyles
  end.

(** The state after a run of events, each on the page of its time. *)
Definition stateAfterAll (s : State) (trace : list (Page * Event)) : State :=
  fold_left (fun s pe => stateAfter (fst pe) s (snd pe)) trace s.

(** How the drag cells of a reachable state hang together. *)
Record coherent (s : State) : Prop := {
  shown_while_dragging : showSelection s = isMouseDown s;
  end_has_rectangle : forall e, dragEnd s = Some e ->
    exists a, dragStart s = Some a /\ selectionBox s = Some (spanned a e);
  no_end_no_selection : dragEnd s = None -> selectedIndex s = ∅;
  rectangle_normalized : forall box, selectionBox s = Some box ->
    0 <= Box.width box /\ 0 <= Box.height box
}.

(** The render committed after the handler of an event has run and before
    the effect it may trigger: the setters of the handler are applied, those
    of the effect are not yet. *)
Definition pendingRender (p : Page) (s : State) (e : Event) : State :=
  applyActions s (performed (handle p s e)).

(** Every render the hook commits: the states between events, and the
    render between a handler and its effect. *)
Inductive rendered : State -> Prop :=
  | rendered_settled s : reachable s -> rendered s
  | rendered_pending p s e : reachable s -> rendered (pendingRender p s e).

(** ** Sample inputs *)

(** A page whose target spans (0,0)-(100,100), unscrolled, with the three
    item boxes A = [0,0,10,10], B = [20,20,10,10] and C = [40,40,10,10] for
    the elements 0, 1 and 2. *)
Definition samplePage : Page :=
  {| target_current :=
       Some {| TargetRect.top := 0; TargetRect.left := 0;
               TargetRect.bottom := 100; TargetRect.right := 100 |};
     scrollX := 0; scrollY := 0;
     getBoundingClientRect := fun item =>
       match item with
       | 0%nat => {| Box.left := 0; Box.top := 0; Box.width := 10; Box.height := 10 |}
       | 1%nat => {| Box.left := 20; Box.top := 20; Box.width := 10; Box.height := 10 |}
       | _ => {| Box.left := 40; Box.top := 40; Box.width := 10; Box.height := 10 |}
       end |}.

(** The same page before the target is mounted. *)
Definition unmountedPage : Page :=
  {| target_current := None; scrollX := 0; scrollY := 0;
     getBoundingClientRect := getBoundingClientRect samplePage |}.

(** A mouse event on an unscrolled page: page and client coordinates agree. *)
Definition mouseAt (px py pressed : Z) : MouseEvent.t :=
  {| MouseEvent.pageX := px; MouseEvent.pageY := py;
     MouseEvent.clientX := px; MouseEvent.clientY := py;
     MouseEvent.buttons := pressed |}.

(** A drag in progress over two registered items. *)
Definition sampleDrag : State :=
  {| dragStart := Some {| Point.x := 1; Point.y := 2 |};
     dragEnd := Some {| Point.x := 30; Point.y := 40 |};
     isMouseDown := true;
     selectionBox := Some {| Box.left := 1; Box.top := 2;
                             Box.width := 29; Box.height := 38 |};
     showSelection := true;
     selectedIndex := {[ 0%nat; 1%nat ]}; items := [0%nat; 1%nat] |}.

(** The three sample items registered, in order. *)
Definition sampleRegistered : State :=
  stateAfter samplePage initialState (AddItems [Some 0%nat; Some 1%nat; Some 2%nat]).

(** A drag over them from (0,0) to (25,25): the rectangle meets A and B. *)
Definition sampleDragAB : State :=
  stateAfter samplePage
    (stateAfter samplePage sampleRegistered (MouseDown (mouseAt 0 0 1)))
    (MouseMove (mouseAt 25 25 1)).

(** * Properties *)

(** ** Geometry *)

(** How a handler's computation unfolds. *)
Ltac run_simpl :=
  cbv [mbind mret Run_bind Run_ret bind ret act deref throwTypeError
       performed completion] in *.

Lemma isWithinTarget_defined pageX pageY m :
  isWithinTarget pageX pageY (Some m) =
  mret {| Within.left := pageX - Margin.left m >=? 0;
          Within.top := pageY - Margin.top m >=? 0;
          Within.right := Margin.right m - pageX >=? 0;
          Within.bottom := Margin.bottom m - pageY >=? 0 |}.
Proof. reflexivity. Qed.

Lemma isWithinTarget_undefined pageX pageY :
  isWithinTarget pageX pageY None = throwTypeError.
Proof. reflexivity. Qed.

Lemma everyTrue_spec w :
  everyTrue w = Within.left w && Within.top w && Within.right w && Within.bottom w.
Proof. destruct w as [[] [] [] []]; reflexivity. Qed.

(** All four booleans of [isWithinTarget] hold exactly for the points within
    the four bounds. *)
Lemma everyTrue_inside pageX pageY m w :
  isWithinTarget pageX pageY (Some m) = mret w ->
  everyTrue w = true <-> inside m pageX pageY.
Proof.
  rewrite isWithinTarget_defined. intros [= <-].
  rewrite everyTrue_spec. cbn [Within.left Within.top Within.right Within.bottom].
  unfold inside. rewrite !andb_true_iff, !Z.geb_le. lia.
Qed.

(** In the effect, where the arguments are the render's own [dragStart] and
    [dragEnd], [calculateSelectionBox] is the rectangle spanned by them. *)
Lemma calculateSelectionBox_of_render r a b :
  dragStart r = Some a -> dragEnd r = Some b ->
  calculateSelectionBox r a b = mret (spanned a b).
Proof. intros Ha Hb. unfold calculateSelectionBox. rewrite Ha, Hb. reflexivity. Qed.

(** Whatever the arguments, a returned box has non-negative extent and does
    not depend on their order. *)
Lemma calculateSelectionBox_extent r a b box :
  calculateSelectionBox r a b = mret box ->
  0 <= Box.width box /\ 0 <= Box.height box /\
  calculateSelectionBox r b a = mret box.
Proof.
  unfold calculateSelectionBox.
  destruct (dragStart r) as [ds|], (dragEnd r) as [de|]; try discriminate.
  run_simpl. cbn. intros [= <-]. cbn.
  repeat split; try lia.
  do 2 f_equal. f_equal; lia.
Qed.



Lemma boxesIntersect_true boxA boxB :
  boxesIntersect boxA boxB = true <->
  Box.left boxA <= Box.left boxB + Box.width boxB /\
  Box.left boxB <= Box.left boxA + Box.width boxA /\
  Box.top boxA <= Box.top boxB + Box.height boxB /\
  Box.top boxB <= Box.top boxA + Box.height boxA.
Proof.
  unfold boxesIntersect.
  rewrite !andb_true_iff, !Z.leb_le, !Z.geb_le. tauto.
Qed.

Lemma boxesIntersect_sym boxA boxB :
  boxesIntersect boxA boxB = boxesIntersect boxB boxA.
Proof.
  apply eq_true_iff_eq. rewrite !boxesIntersect_true. tauto.
Qed.

(** C9.  For rectangles of non-negative width and height, [boxesIntersect]
    is true exactly when the two closed rectangles have a point in common.
    So two rectangles that share an edge intersect (as do the rectangles
    (0,0,10,10) and (10,0,10,10)), and a zero-area rectangle intersects
    another one only when its point lies on or in it. *)
Theorem boxesIntersect_inclusive (r1 r2 : Box.t)
    (Hw1 : 0 <= Box.width r1) (Hh1 : 0 <= Box.height r1)
    (Hw2 : 0 <= Box.width r2) (Hh2 : 0 <= Box.height r2) :
  (boxesIntersect r1 r2 = true <->
     exists px py, covers r1 px py /\ covers r2 px py) /\
  (Box.left r1 + Box.width r1 = Box.left r2 ->
     Box.top r1 <= Box.top r2 + Box.height r2 ->
     Box.top r2 <= Box.top r1 + Box.height r1 ->
     boxesIntersect r1 r2 = true /\ boxesIntersect r2 r1 = true) /\
  (Box.top r1 + Box.height r1 = Box.top r2 ->
     Box.left r1 <= Box.left r2 + Box.width r2 ->
     Box.left r2 <= Box.left r1 + Box.width r1 ->
     boxesIntersect r1 r2 = true /\ boxesIntersect r2 r1 = true) /\
  (Box.width r1 = 0 -> Box.height r1 = 0 ->
     (boxesIntersect r1 r2 = true <-> covers r2 (Box.left r1) (Box.top r1))) /\
  boxesIntersect {| Box.left := 0; Box.top := 0; Box.width := 10; Box.height := 10 |}
                 {| Box.left := 10; Box.top := 0; Box.width := 10; Box.height := 10 |}
    = true.
Proof.
  split; [|split; [|split; [|split]]].
  - rewrite boxesIntersect_true. unfold covers. split.
    + intros (Hl & Hr & Ht & Hb).
      exists (Z.max (Box.left r1) (Box.left r2)), (Z.max (Box.top r1) (Box.top r2)).
      lia.
    + intros (px & py & H1 & H2). lia.
  - intros He Ht Hb. rewrite (boxesIntersect_sym r2 r1), boxesIntersect_true.
    split; [|trivial]; lia.
  - intros He Hl Hr. rewrite (boxesIntersect_sym r2 r1), boxesIntersect_true.
    split; [|trivial]; lia.
  - intros Hw Hh. rewrite boxesIntersect_true. unfold covers. lia.
  - reflexivity.
Qed.

Lemma boxesIntersect_inclusive_witness :
  boxesIntersect {| Box.left := 0; Box.top := 0; Box.width := 10; Box.height := 10 |}
                 {| Box.left := 10; Box.top := 0; Box.width := 10; Box.height := 10 |}
    = true /\
  boxesIntersect {| Box.left := 10; Box.top := 0; Box.width := 10; Box.height := 10 |}
                 {| Box.left := 0; Box.top := 0; Box.width := 10; Box.height := 10 |}
    = true.
Proof.
  refine (proj1 (proj2 (boxesIntersect_inclusive
           {| Box.left := 0; Box.top := 0; Box.width := 10; Box.height := 10 |}
           {| Box.left := 10; Box.top := 0; Box.width := 10; Box.height := 10 |}
           _ _ _ _)) _ _ _); simpl; lia.
Defined.

(** ** Pointer down *)

(** What [onMouseDown] does in a render with a margin. *)
Lemma onMouseDown_defined m evt :
  onMouseDown (Some m) evt =
  if inside_dec m evt
  then ([PreventDefault; SetDragStart None; SetDragEnd None; SetSelectedIndex ∅;
         SetShowSelection true; SetIsMouseDown true;
         SetDragStart (Some {| Point.x := MouseEvent.pageX evt;
                               Point.y := MouseEvent.pageY evt |})],
        Returns tt)
  else ([PreventDefault], Returns tt).
Proof.
  unfold onMouseDown, inside_dec, isWithinTarget, everyTrue. run_simpl.
  cbn [forallb app Within.left Within.top Within.right Within.bottom].
  destruct (_ >=? 0), (_ >=? 0), (_ >=? 0), (_ >=? 0); reflexivity.
Qed.

Lemma step_MouseDown_inside p m s evt :
  getTargetMargin p = Some m -> inside_dec m evt = true ->
  step p s (MouseDown evt) =
  ({| dragStart := Some {| Point.x := MouseEvent.pageX evt;
                           Point.y := MouseEvent.pageY evt |};
      dragEnd := None; isMouseDown := true;
      selectionBox := selectionBox s; showSelection := true;
      selectedIndex := ∅; items := items s |}, []).
Proof.
  intros Hm Hin. unfold step, handle.
  rewrite Hm, onMouseDown_defined, Hin. reflexivity.
Qed.

Lemma step_MouseDown_outside p m s evt :
  getTargetMargin p = Some m -> inside_dec m evt = false ->
  step p s (MouseDown evt) = (s, []).
Proof.
  intros Hm Hin. unfold step, handle.
  rewrite Hm, onMouseDown_defined, Hin. reflexivity.
Qed.

Lemma step_MouseDown_undefined p s evt :
  getTargetMargin p = None -> step p s (MouseDown evt) = (s, []).
Proof. intros Hm. unfold step, handle. rewrite Hm. reflexivity. Qed.

(** C5.  In a render with a margin, a pointer-down returns normally; if one
    of the four booleans of [isWithinTarget] at the event's page point is
    false it changes nothing and notifies nobody, and if all four are true
    it leaves the hook dragging ([isMouseDown]) with an empty selected set,
    [dragStart] at the event's page point, no [dragEnd] and the drag box
    shown. *)
Theorem onMouseDown_starts_only_within_margin
    (p : Page) (m : Margin.t) (s : State) (evt : MouseEvent.t) (w : Within.t)
    (Hm : getTargetMargin p = Some m)
    (Hw : isWithinTarget (MouseEvent.pageX evt) (MouseEvent.pageY evt) (Some m) = mret w) :
  completion (handle p s (MouseDown evt)) = Returns tt /\
  (Within.left w && Within.top w && Within.right w && Within.bottom w = false ->
     step p s (MouseDown evt) = (s, [])) /\
  (Within.left w && Within.top w && Within.right w && Within.bottom w = true ->
     step p s (MouseDown evt) =
     ({| dragStart := Some {| Point.x := MouseEvent.pageX evt;
                              Point.y := MouseEvent.pageY evt |};
         dragEnd := None; isMouseDown := true;
         selectionBox := selectionBox s; showSelection := true;
         selectedIndex := ∅; items := items s |}, [])).
Proof.
  rewrite isWithinTarget_defined in Hw. injection Hw as <-.
  cbn [Within.left Within.top Within.right Within.bottom].
  fold (inside_dec m evt).
  split; [|split].
  - unfold handle. rewrite Hm, onMouseDown_defined.
    destruct (inside_dec m evt); reflexivity.
  - now apply step_MouseDown_outside.
  - now apply step_MouseDown_inside.
Qed.

Lemma onMouseDown_starts_only_within_margin_witness :
  step samplePage initialState (MouseDown (mouseAt 50 50 1)) =
  ({| dragStart := Some {| Point.x := 50; Point.y := 50 |};
      dragEnd := None; isMouseDown := true;
      selectionBox := None; showSelection := true;
      selectedIndex := ∅; items := [] |}, []) /\
  step samplePage sampleDrag (MouseDown (mouseAt 50 101 1)) = (sampleDrag, []).
Proof.
  split.
  - refine (proj2 (proj2 (onMouseDown_starts_only_within_margin samplePage
              {| Margin.top := 0; Margin.left := 0; Margin.bottom := 100; Margin.right := 100 |}
              initialState (mouseAt 50 50 1)
              {| Within.left := true; Within.top := true;
                 Within.right := true; Within.bottom := true |} _ _)) _);
      reflexivity.
  - refine (proj1 (proj2 (onMouseDown_starts_only_within_margin samplePage
              {| Margin.top := 0; Margin.left := 0; Margin.bottom := 100; Margin.right := 100 |}
              sampleDrag (mouseAt 50 101 1)
              {| Within.left := true; Within.top := true;
                 Within.right := true; Within.bottom := false |} _ _)) _);
      reflexivity.
Defined.

(** C3.  With [targetRef.current] unset [getTargetMargin] returns
    [undefined], and every pointer-down then throws a [TypeError] in
    [isWithinTarget] (after [preventDefault], before any setter): no drag
    starts and the state is unchanged, but a failure is raised. *)
Theorem onMouseDown_without_target_throws
    (sx sy : Z) (layout : Item -> Box.t) (s : State) (evt : MouseEvent.t) :
  let p := {| target_current := None; scrollX := sx; scrollY := sy;
              getBoundingClientRect := layout |} in
  getTargetMargin p = None /\
  handle p s (MouseDown evt) = ([PreventDefault], TypeError) /\
  step p s (MouseDown evt) = (s, []).
Proof. repeat split. Qed.

(** ** Pointer up *)

Lemma step_MouseUp p s evt :
  step p s (MouseUp evt) = (cleared (items s), []).
Proof. reflexivity. Qed.

(** C6.  While dragging, a pointer-up leaves the fully cleared state (empty
    selected set, not dragging, box hidden, no rectangle, no start, no end)
    whatever the state was, and a move that reports no pressed button leaves
    the same state; neither notifies the caller. *)
Theorem onMouseUp_full_reset
    (p : Page) (s : State) (evt evt' : MouseEvent.t)
    (Hdown : isMouseDown s = true) (Hbuttons : MouseEvent.buttons evt' = 0) :
  step p s (MouseUp evt) = (cleared (items s), []) /\
  step p s (MouseMove evt') = (cleared (items s), []).
Proof.
  split; [reflexivity|].
  unfold step, handle, onMouseMove. rewrite Hdown, Hbuttons. reflexivity.
Qed.

Lemma onMouseUp_full_reset_witness :
  step unmountedPage sampleDrag (MouseUp (mouseAt 30 40 0)) = (cleared [0%nat; 1%nat], []) /\
  step unmountedPage sampleDrag (MouseMove (mouseAt 30 40 0)) = (cleared [0%nat; 1%nat], []).
Proof.
  apply (onMouseUp_full_reset unmountedPage sampleDrag (mouseAt 30 40 0) (mouseAt 30 40 0));
    reflexivity.
Defined.

(** ** Pointer move *)

Lemma onMouseMove_idle margin r evt :
  isMouseDown r = false ->
  onMouseMove margin r evt = ([PreventDefault], Returns tt).
Proof. intros Hidle. unfold onMouseMove. rewrite Hidle. reflexivity. Qed.

Lemma onMouseMove_undefined r evt :
  isMouseDown r = true -> MouseEvent.buttons evt <> 0 ->
  onMouseMove None r evt = ([PreventDefault], TypeError).
Proof.
  intros Hdown Hpressed. unfold onMouseMove. rewrite Hdown.
  apply Z.eqb_neq in Hpressed. rewrite Hpressed. reflexivity.
Qed.

(** An accepted move: each coordinate of the new end is the event's when the
    event is within the two bounds of that axis, and otherwise
    [dragEnd?.x || evt.clientX] (resp. [y]). *)
Lemma onMouseMove_dragging m r evt :
  isMouseDown r = true -> MouseEvent.buttons evt <> 0 ->
  onMouseMove (Some m) r evt =
  ([PreventDefault; SetDragEnd (Some (nextEnd m r evt))], Returns tt).
Proof.
  intros Hdown Hpressed. unfold onMouseMove. rewrite Hdown.
  apply Z.eqb_neq in Hpressed. rewrite Hpressed.
  unfold isWithinTarget, nextEnd. run_simpl.
  cbn [negb app Within.left Within.top Within.right Within.bottom].
  destruct (_ - Margin.left m >=? 0), (Margin.right m - _ >=? 0),
    (_ - Margin.top m >=? 0), (Margin.bottom m - _ >=? 0); reflexivity.
Qed.

(** The seed is the previous end wherever its coordinate is not [0]. *)
Lemma orElse_previous v b : v <> 0 -> orElse (Some v) b = v.
Proof. intros Hv. unfold orElse. apply Z.eqb_neq in Hv. now rewrite Hv. Qed.

Lemma orElse_absent b : orElse None b = b.
Proof. reflexivity. Qed.

(** A previous coordinate [0] is falsy: the seed is the event's coordinate. *)
Lemma orElse_zero b : orElse (Some 0) b = b.
Proof. reflexivity. Qed.

(** With the margin (0,0)-(100,100): a drag from (50,50) over (80,50) to
    (150,50) keeps the end at x = 80, and a drag from (50,50) straight to
    (150,50), with no previous end, ends at the event's own x = 150. *)
Example onMouseMove_freezes_x :
  dragEnd (stateAfter samplePage
             (stateAfter samplePage
                (stateAfter samplePage initialState (MouseDown (mouseAt 50 50 1)))
                (MouseMove (mouseAt 80 50 1)))
             (MouseMove (mouseAt 150 50 1)))
    = Some {| Point.x := 80; Point.y := 50 |} /\
  dragEnd (stateAfter samplePage
             (stateAfter samplePage initialState (MouseDown (mouseAt 50 50 1)))
             (MouseMove (mouseAt 150 50 1)))
    = Some {| Point.x := 150; Point.y := 50 |}.
Proof. split; vm_compute; reflexivity. Qed.

(** C2.  The seed of the new end is [dragEnd?.x || evt.clientX], which also
    falls back to the event when the previous end's coordinate is 0.  With
    the margin (0,0)-(100,100), a drag from (50,50) over (0,50), on the left
    bound, to (150,50) ends at x = 150, outside the margin, and not at the
    last in-bounds x = 0. *)
Theorem onMouseMove_zero_end_not_frozen :
  let s1 := stateAfter samplePage initialState (MouseDown (mouseAt 50 50 1)) in
  let s2 := stateAfter samplePage s1 (MouseMove (mouseAt 0 50 1)) in
  let s3 := stateAfter samplePage s2 (MouseMove (mouseAt 150 50 1)) in
  getTargetMargin samplePage =
    Some {| Margin.top := 0; Margin.left := 0; Margin.bottom := 100; Margin.right := 100 |} /\
  isMouseDown s2 = true /\
  dragEnd s2 = Some {| Point.x := 0; Point.y := 50 |} /\
  dragEnd s3 = Some {| Point.x := 150; Point.y := 50 |}.
Proof. repeat split; vm_compute; reflexivity. Qed.

(** ** Registration *)

Lemma addItem_known r it :
  it ∈ items r -> addItem r (Some it) = mret tt.
Proof. intros Hin. unfold addItem. now rewrite bool_decide_eq_true_2. Qed.

Lemma addItem_unknown r it :
  it ∉ items r -> addItem r (Some it) = ([SetItemsAppend it; Observe it], Returns tt).
Proof. intros Hin. unfold addItem. now rewrite bool_decide_eq_false_2. Qed.

Lemma addItem_null r : addItem r None = mret tt.
Proof. reflexivity. Qed.

Lemma handle_AddItems p r args :
  handle p r (AddItems args) =
  (flat_map (fun it => [SetItemsAppend it; Observe it]) (appended r args), Returns tt).
Proof.
  unfold handle. induction args as [|[it|] args IH]; cbn [foldr appended].
  - reflexivity.
  - rewrite IH. unfold addItem.
    destruct (bool_decide (it ∈ items r)); reflexivity.
  - rewrite IH. reflexivity.
Qed.

Lemma applyActions_appends s l :
  applyActions s (flat_map (fun it => [SetItemsAppend it; Observe it]) l) =
  {| dragStart := dragStart s; dragEnd := dragEnd s; isMouseDown := isMouseDown s;
     selectionBox := selectionBox s; showSelection := showSelection s;
     selectedIndex := selectedIndex s; items := items s ++ l |}.
Proof.
  revert s. induction l as [|it l IH]; intros s.
  - cbn. rewrite app_nil_r. now destruct s.
  - cbn [flat_map app]. unfold applyActions in *. cbn [fold_left].
    rewrite IH. cbn. now rewrite <- app_assoc.
Qed.

Lemma touchesDeps_appends l :
  touchesDeps (flat_map (fun it => [SetItemsAppend it; Observe it]) l) = false.
Proof. induction l; [reflexivity | exact IHl]. Qed.

Lemma notifications_appends l :
  notifications (flat_map (fun it => [SetItemsAppend it; Observe it]) l) = [].
Proof. induction l; [reflexivity | exact IHl]. Qed.

Lemma step_AddItems p s args :
  step p s (AddItems args) =
  ({| dragStart := dragStart s; dragEnd := dragEnd s; isMouseDown := isMouseDown s;
      selectionBox := selectionBox s; showSelection := showSelection s;
      selectedIndex := selectedIndex s; items := items s ++ appended s args |}, []).
Proof.
  unfold step. rewrite handle_AddItems. unfold performed. cbn [fst].
  now rewrite touchesDeps_appends, applyActions_appends, notifications_appends.
Qed.

(** ** The selection effect *)

Lemma selectionEffect_skips p r :
  dragStart r = None \/ dragEnd r = None -> selectionEffect p r = mret tt.
Proof.
  unfold selectionEffect. intros [H|H]; rewrite H; [|destruct (dragStart r)]; reflexivity.
Qed.

Lemma selectionEffect_defined p r a b :
  dragStart r = Some a -> dragEnd r = Some b ->
  let newIndexes :=
    forEachItem p (spanned a b) (selectedIndex r) 0%nat (items r) (selectedIndex r) in
  selectionEffect p r =
  ([SetSelectedIndex newIndexes; OnSelectionChange newIndexes;
    SetSelectionBox (Some (spanned a b))], Returns tt).
Proof.
  intros Ha Hb. unfold selectionEffect.
  rewrite Ha, Hb, (calculateSelectionBox_of_render r a b Ha Hb). reflexivity.
Qed.

(** Membership after [add] and [delete]. *)
Ltac elem_index :=
  rewrite ?elem_of_union, ?elem_of_difference, ?elem_of_singleton;
  intuition (subst; try lia; try discriminate).

(** Indices the loop has passed or not yet reached keep their membership. *)
Lemma forEachItem_elsewhere p box sel k its acc i :
  (i < k \/ k + length its <= i)%nat ->
  i ∈ forEachItem p box sel k its acc <-> i ∈ acc.
Proof.
  revert k acc. induction its as [|it its IH]; intros k acc Hi; cbn [forEachItem].
  - reflexivity.
  - cbn [length] in Hi. rewrite IH by lia.
    destruct (boxesIntersect _ _ && _); [elem_index|].
    destruct (_ && _); elem_index.
Qed.

(** The membership of a visited index after the loop. *)
Lemma forEachItem_visited p box sel k its acc j it :
  its !! j = Some it ->
  (k + j)%nat ∈ forEachItem p box sel k its acc <->
  (boxesIntersect box (getBoundingClientRect p it) = true /\ (k + j)%nat ∉ sel) \/
  (~ (boxesIntersect box (getBoundingClientRect p it) = false /\ (k + j)%nat ∈ sel) /\
   (k + j)%nat ∈ acc).
Proof.
  revert k acc j. induction its as [|it' its IH]; intros k acc j Hj; [discriminate|].
  cbn [forEachItem]. destruct j as [|j].
  - injection Hj as ->. rewrite Nat.add_0_r.
    rewrite forEachItem_elsewhere by lia.
    unfold has.
    destruct (boxesIntersect box (getBoundingClientRect p it)); cbn [andb negb];
      case_bool_decide; cbn [negb]; elem_index.
  - cbn in Hj. replace (k + S j)%nat with (S k + j)%nat by lia.
    rewrite (IH (S k) _ j Hj).
    destruct (boxesIntersect box (getBoundingClientRect p it') && _);
      [elem_index|].
    destruct (_ && _); elem_index.
Qed.

(** Started from the selected set itself, the loop leaves exactly the
    indices of the intersecting items, and the selected indices that are not
    the index of any item. *)
Lemma forEachItem_selected p box sel its i :
  i ∈ forEachItem p box sel 0%nat its sel <->
  match its !! i with
  | Some it => boxesIntersect box (getBoundingClientRect p it) = true
  | None => i ∈ sel
  end.
Proof.
  destruct (its !! i) as [it|] eqn:Hi.
  - rewrite (forEachItem_visited p box sel 0%nat its sel i it Hi). cbn [Nat.add].
    destruct (boxesIntersect box (getBoundingClientRect p it)), (decide (i ∈ sel));
      intuition (try discriminate; auto).
  - apply forEachItem_elsewhere. apply lookup_ge_None in Hi. lia.
Qed.

(** ** Steps of a pointer move *)

Lemma step_MouseMove_idle p s evt :
  isMouseDown s = false -> step p s (MouseMove evt) = (s, []).
Proof.
  intros Hidle. unfold step, handle. rewrite (onMouseMove_idle _ s evt Hidle). reflexivity.
Qed.

Lemma step_MouseMove_released p s evt :
  isMouseDown s = true -> MouseEvent.buttons evt = 0 ->
  step p s (MouseMove evt) = (cleared (items s), []).
Proof.
  intros Hdown Hbuttons. unfold step, handle, onMouseMove.
  rewrite Hdown, Hbuttons. reflexivity.
Qed.

Lemma step_MouseMove_undefined p s evt :
  getTargetMargin p = None ->
  isMouseDown s = true -> MouseEvent.buttons evt <> 0 ->
  step p s (MouseMove evt) = (s, []).
Proof.
  intros Hm Hdown Hpressed. unfold step, handle.
  rewrite Hm, (onMouseMove_undefined s evt Hdown Hpressed). reflexivity.
Qed.

(** An accepted move of a drag that has its start: the end is replaced and
    the effect reconciles the selected set in the next render. *)
Lemma step_MouseMove_dragging p m s evt a :
  getTargetMargin p = Some m ->
  isMouseDown s = true -> MouseEvent.buttons evt <> 0 ->
  dragStart s = Some a ->
  let e := nextEnd m s evt in
  let newIndexes :=
    forEachItem p (spanned a e) (selectedIndex s) 0%nat (items s) (selectedIndex s) in
  step p s (MouseMove evt) =
  ({| dragStart := Some a; dragEnd := Some e; isMouseDown := true;
      selectionBox := Some (spanned a e); showSelection := showSelection s;
      selectedIndex := newIndexes; items := items s |}, [newIndexes]).
Proof.
  intros Hm Hdown Hpressed Ha e newIndexes. unfold step, handle.
  rewrite Hm, (onMouseMove_dragging m s evt Hdown Hpressed).
  cbn [performed fst touchesDeps existsb orb applyActions fold_left applyAction].
  fold e.
  rewrite (selectionEffect_defined p _ a e) by (cbn; trivial).
  cbn. rewrite Hdown, Ha. reflexivity.
Qed.

Lemma step_MouseMove_without_start p m s evt :
  getTargetMargin p = Some m ->
  isMouseDown s = true -> MouseEvent.buttons evt <> 0 ->
  dragStart s = None ->
  step p s (MouseMove evt) =
  ({| dragStart := None; dragEnd := Some (nextEnd m s evt); isMouseDown := true;
      selectionBox := selectionBox s; showSelection := showSelection s;
      selectedIndex := selectedIndex s; items := items s |}, []).
Proof.
  intros Hm Hdown Hpressed Ha. unfold step, handle.
  rewrite Hm, (onMouseMove_dragging m s evt Hdown Hpressed).
  cbn [performed fst touchesDeps existsb orb applyActions fold_left applyAction].
  rewrite selectionEffect_skips by (left; cbn; trivial).
  cbn. rewrite Hdown, Ha. reflexivity.
Qed.

(** ** Reachable states *)

Lemma consistent_initial : consistent initialState.
Proof.
  split.
  - reflexivity.
  - discriminate.
  - intros i Hi. cbn in Hi. now apply not_elem_of_empty in Hi.
Qed.

Lemma consistent_cleared its : consistent (cleared its).
Proof.
  split.
  - reflexivity.
  - discriminate.
  - intros i Hi. cbn in Hi. now apply not_elem_of_empty in Hi.
Qed.

Lemma consistent_step p s e : consistent s -> consistent (stateAfter p s e).
Proof.
  intros [Hidle Hdrag Hsel]. unfold stateAfter. destruct e as [evt|evt|evt|args].
  - (* pointer down *)
    destruct (getTargetMargin p) as [m|] eqn:Hm.
    + destruct (inside_dec m evt) eqn:Hin.
      * rewrite (step_MouseDown_inside p m s evt Hm Hin). split; cbn.
        -- discriminate.
        -- eauto.
        -- intros i Hi. now apply not_elem_of_empty in Hi.
      * rewrite (step_MouseDown_outside p m s evt Hm Hin). now split.
    + rewrite (step_MouseDown_undefined p s evt Hm). now split.
  - (* pointer move *)
    destruct (isMouseDown s) eqn:Hdown.
    + destruct (Z.eq_dec (MouseEvent.buttons evt) 0) as [Hb|Hb].
      * rewrite (step_MouseMove_released p s evt Hdown Hb). apply consistent_cleared.
      * destruct (getTargetMargin p) as [m|] eqn:Hm.
        -- destruct (Hdrag eq_refl) as [a Ha].
           rewrite (step_MouseMove_dragging p m s evt a Hm Hdown Hb Ha). split; cbn.
           ++ discriminate.
           ++ eauto.
           ++ intros i Hi. apply forEachItem_selected in Hi.
              destruct (items s !! i) as [it|] eqn:Hit.
              ** now apply lookup_lt_Some in Hit.
              ** now apply Hsel.
        -- rewrite (step_MouseMove_undefined p s evt Hm Hdown Hb). cbn.
           split; [congruence | intros _; now apply Hdrag | exact Hsel].
    + rewrite (step_MouseMove_idle p s evt Hdown). cbn.
      split; [intros _; now apply Hidle | congruence | exact Hsel].
  - (* pointer up *)
    rewrite step_MouseUp. apply consistent_cleared.
  - (* registrations *)
    rewrite step_AddItems. split; cbn.
    + intros Hdown. specialize (Hidle Hdown).
      destruct s; cbn in *. injection Hidle; intros; subst. reflexivity.
    + exact Hdrag.
    + intros i Hi. rewrite length_app. apply Hsel in Hi. lia.
Qed.

Lemma reachable_consistent s : reachable s -> consistent s.
Proof.
  induction 1 as [|p s e _ IH].
  - apply consistent_initial.
  - now apply consistent_step.
Qed.

(** C4.  In every reachable state that is not dragging, a pointer-move and a
    pointer-up leave the whole state as it is (start, end, selected set,
    box visibility, rectangle and items) and notify nobody. *)
Theorem idle_move_and_up_ignored
    (p : Page) (s : State) (evt evt' : MouseEvent.t)
    (Hreach : reachable s) (Hidle : isMouseDown s = false) :
  step p s (MouseMove evt) = (s, []) /\ step p s (MouseUp evt') = (s, []).
Proof.
  split.
  - now apply step_MouseMove_idle.
  - rewrite step_MouseUp. f_equal. symmetry.
    now apply (idle_cleared s (reachable_consistent s Hreach)).
Qed.

Lemma idle_move_and_up_ignored_witness :
  step samplePage sampleRegistered (MouseMove (mouseAt 5 5 1)) = (sampleRegistered, []) /\
  step samplePage sampleRegistered (MouseUp (mouseAt 5 5 0)) = (sampleRegistered, []).
Proof.
  apply idle_move_and_up_ignored.
  - apply reachable_step, reachable_initial.
  - reflexivity.
Defined.

(** C10.  In every reachable state, every selected index is the index of a
    registered item. *)
Theorem selected_indices_registered
    (s : State) (i : nat) (Hreach : reachable s) (Hi : i ∈ selectedIndex s) :
  (i < length (items s))%nat.
Proof. exact (selected_registered s (reachable_consistent s Hreach) i Hi). Qed.

Lemma selected_indices_registered_witness :
  (1 < length (items sampleDragAB))%nat.
Proof.
  apply selected_indices_registered.
  - do 3 apply reachable_step. apply reachable_initial.
  - vm_compute. reflexivity.
Defined.

(** ** Reconciliation *)

(** In a render with both points, the effect sets the selected set to the
    previous one plus the unselected indices whose item meets the rectangle,
    minus the selected indices whose item does not, hands that set to
    [onSelectionChange], and sets the rectangle. *)
Lemma selectionEffect_minimal_diff p r a b :
  dragStart r = Some a -> dragEnd r = Some b ->
  exists newIndexes : gset nat,
    selectionEffect p r =
      ([SetSelectedIndex newIndexes; OnSelectionChange newIndexes;
        SetSelectionBox (Some (spanned a b))], Returns tt) /\
    forall i : nat,
      i ∈ newIndexes <->
      (i ∈ selectedIndex r /\
       ~ (exists it, items r !! i = Some it /\
            boxesIntersect (spanned a b) (getBoundingClientRect p it) = false)) \/
      (exists it, items r !! i = Some it /\
         boxesIntersect (spanned a b) (getBoundingClientRect p it) = true /\
         i ∉ selectedIndex r).
Proof.
  intros Ha Hb. eexists. split; [apply (selectionEffect_defined p r a b Ha Hb)|].
  intros i. rewrite forEachItem_selected.
  destruct (items r !! i) as [it|] eqn:Hit.
  - destruct (boxesIntersect (spanned a b) (getBoundingClientRect p it)) eqn:Hint.
    + split; [intros _|trivial].
      destruct (decide (i ∈ selectedIndex r)) as [Hi|Hi].
      * left. split; [exact Hi|]. intros (it' & [= <-] & Hno). congruence.
      * right. eauto.
    + split; [discriminate|].
      intros [[_ Hno]|(it' & [= <-] & Hyes & _)]; [|congruence].
      exfalso. apply Hno. eauto.
  - split.
    + intros Hi. left. split; [exact Hi|]. intros (it & [=] & _).
    + intros [[Hi _]|(it & [=] & _)]. exact Hi.
Qed.

(** C1.  An accepted move of a drag from [a] (buttons pressed, margin
    known) sets the end to some [e], after which the effect runs in a render
    with both points: the new selected set is the previous one plus every
    unselected index whose item's current box intersects the rectangle
    spanned by [a] and [e], minus every selected index whose item's box does
    not; [onSelectionChange] is called exactly once, with that set, whether
    or not it differs from the previous one. *)
Theorem accepted_move_reconciles
    (p : Page) (m : Margin.t) (s : State) (evt : MouseEvent.t) (a : Point.t)
    (Hm : getTargetMargin p = Some m)
    (Hdown : isMouseDown s = true)
    (Hpressed : MouseEvent.buttons evt <> 0)
    (Ha : dragStart s = Some a) :
  exists (e : Point.t) (newIndexes : gset nat),
    stateAfter p s (MouseMove evt) =
      {| dragStart := Some a; dragEnd := Some e; isMouseDown := true;
         selectionBox := Some (spanned a e); showSelection := showSelection s;
         selectedIndex := newIndexes; items := items s |} /\
    selectionEffect p (applyActions s (performed (handle p s (MouseMove evt)))) =
      ([SetSelectedIndex newIndexes; OnSelectionChange newIndexes;
        SetSelectionBox (Some (spanned a e))], Returns tt) /\
    notified p s (MouseMove evt) = [newIndexes] /\
    forall i : nat,
      i ∈ newIndexes <->
      (i ∈ selectedIndex s /\
       ~ (exists it, items s !! i = Some it /\
            boxesIntersect (spanned a e) (getBoundingClientRect p it) = false)) \/
      (exists it, items s !! i = Some it /\
         boxesIntersect (spanned a e) (getBoundingClientRect p it) = true /\
         i ∉ selectedIndex s).
Proof.
  pose proof (step_MouseMove_dragging p m s evt a Hm Hdown Hpressed Ha) as Hstep.
  cbn zeta in Hstep.
  set (r := applyActions s (performed (handle p s (MouseMove evt)))).
  assert (Hr : r = {| dragStart := Some a; dragEnd := Some (nextEnd m s evt);
                      isMouseDown := true; selectionBox := selectionBox s;
                      showSelection := showSelection s;
                      selectedIndex := selectedIndex s; items := items s |}).
  { unfold r, handle. rewrite Hm, (onMouseMove_dragging m s evt Hdown Hpressed).
    cbn. now rewrite Hdown, Ha. }
  destruct (selectionEffect_minimal_diff p r a (nextEnd m s evt))
    as (newIndexes & Heffect & Hdiff); [now rewrite Hr..|].
  exists (nextEnd m s evt), newIndexes.
  assert (Hnew : newIndexes =
            forEachItem p (spanned a (nextEnd m s evt)) (selectedIndex s) 0%nat
              (items s) (selectedIndex s)).
  { rewrite (selectionEffect_defined p r a (nextEnd m s evt)) in Heffect
      by now rewrite Hr.
    rewrite Hr in Heffect. cbn in Heffect. congruence. }
  unfold stateAfter, notified. rewrite Hstep, <- Hnew. cbn [fst snd].
  repeat split; try assumption.
  - rewrite Hr in Hdiff. exact (proj1 (Hdiff i)).
  - rewrite Hr in Hdiff. exact (proj2 (Hdiff i)).
Qed.

Lemma accepted_move_reconciles_witness :
  exists (e : Point.t) (newIndexes : gset nat),
    stateAfter samplePage sampleDragAB (MouseMove (mouseAt 45 45 1)) =
      {| dragStart := Some {| Point.x := 0; Point.y := 0 |}; dragEnd := Some e;
         isMouseDown := true;
         selectionBox := Some (spanned {| Point.x := 0; Point.y := 0 |} e);
         showSelection := showSelection sampleDragAB;
         selectedIndex := newIndexes; items := items sampleDragAB |} /\
    notified samplePage sampleDragAB (MouseMove (mouseAt 45 45 1)) = [newIndexes].
Proof.
  destruct (accepted_move_reconciles samplePage
              {| Margin.top := 0; Margin.left := 0; Margin.bottom := 100; Margin.right := 100 |}
              sampleDragAB (mouseAt 45 45 1) {| Point.x := 0; Point.y := 0 |})
    as (e & newIndexes & Hstate & _ & Hnotified & _).
  - reflexivity.
  - reflexivity.
  - discriminate.
  - reflexivity.
  - exists e, newIndexes. split; assumption.
Defined.

(** Three items with the boxes A, B and C: a drag from (0,0) to (25,25)
    selects 0 and 1, and growing it to (45,45) selects 0, 1 and 2; the
    caller is told the whole set each time, also when the move changes
    nothing. *)
Example reconcile_three_items :
  selectedIndex sampleDragAB = {[ 0%nat; 1%nat ]} /\
  step samplePage sampleDragAB (MouseMove (mouseAt 45 45 1)) =
    ({| dragStart := Some {| Point.x := 0; Point.y := 0 |};
        dragEnd := Some {| Point.x := 45; Point.y := 45 |};
        isMouseDown := true;
        selectionBox := Some {| Box.left := 0; Box.top := 0;
                                Box.width := 45; Box.height := 45 |};
        showSelection := true;
        selectedIndex := {[ 0%nat; 1%nat; 2%nat ]};
        items := [0%nat; 1%nat; 2%nat] |},
     [{[ 0%nat; 1%nat; 2%nat ]}]) /\
  notified samplePage sampleDragAB (MouseMove (mouseAt 26 26 1)) = [{[ 0%nat; 1%nat ]}].
Proof. repeat split; vm_compute; reflexivity. Qed.

(** ** Registration across renders *)

(** Registering keeps the registered items and their order. *)
Lemma items_AddItems p s args :
  items (stateAfter p s (AddItems args)) = items s ++ appended s args.
Proof. unfold stateAfter. now rewrite step_AddItems. Qed.

(** In a render that already sees the item, [addItem] does nothing. *)
Lemma addItem_seen_is_noop p s it :
  it ∈ items s -> step p s (AddItems [Some it]) = (s, []).
Proof.
  intros Hin. rewrite step_AddItems. cbn [appended].
  rewrite bool_decide_eq_true_2 by exact Hin.
  rewrite app_nil_r. now destruct s.
Qed.

(** Registered once, and once more by the [addItem] of the next render: the
    item is in the registry once. *)
Lemma addItem_next_render_is_noop p q s it :
  stateAfter q (stateAfter p s (AddItems [Some it])) (AddItems [Some it]) =
  stateAfter p s (AddItems [Some it]).
Proof.
  unfold stateAfter at 1. rewrite addItem_seen_is_noop; [reflexivity|].
  rewrite items_AddItems. cbn [appended].
  case_bool_decide as Hin; [|rewrite elem_of_app, list_elem_of_singleton; auto].
  now rewrite app_nil_r.
Qed.

(** C7.  [addItem] tests [items.includes(item)] on the [items] of the render
    it was created in and appends through an updater: called twice with the
    same new element before the next render, or called again after the
    render through the same function, it registers the element twice. *)
Theorem addItem_twice_in_one_render_duplicates :
  let el : Item := 7%nat in
  let s1 := stateAfter samplePage initialState (AddItems [Some el]) in
  handle samplePage initialState (AddItems [Some el; Some el]) =
    ([SetItemsAppend el; Observe el; SetItemsAppend el; Observe el], Returns tt) /\
  items (stateAfter samplePage initialState (AddItems [Some el; Some el])) = [el; el] /\
  items s1 = [el] /\
  items (applyActions s1 (performed (addItem initialState (Some el)))) = [el; el].
Proof. repeat split. Qed.

(** * Further properties of the hook *)

(** ** Geometry *)

(** X1.  [boxesIntersect] does not depend on the order of its arguments,
    whatever the rectangles. *)
Theorem boxesIntersect_symmetric (boxA boxB : Box.t) :
  boxesIntersect boxA boxB = boxesIntersect boxB boxA.
Proof. apply boxesIntersect_sym. Qed.

(** X2.  Growing a rectangle keeps what it met: if [boxA'] covers every
    point of the rectangle [boxA] (of non-negative width and height), every
    box that [boxA] intersects is intersected by [boxA'] too. *)
Theorem boxesIntersect_grows (boxA boxA' boxB : Box.t)
    (Hw : 0 <= Box.width boxA) (Hh : 0 <= Box.height boxA)
    (Hgrow : forall px py, covers boxA px py -> covers boxA' px py)
    (Hmeet : boxesIntersect boxA boxB = true) :
  boxesIntersect boxA' boxB = true.
Proof.
  apply boxesIntersect_true in Hmeet. apply boxesIntersect_true.
  assert (H1 : covers boxA' (Box.left boxA) (Box.top boxA))
    by (apply Hgrow; unfold covers; lia).
  assert (H2 : covers boxA' (Box.left boxA + Box.width boxA)
                 (Box.top boxA + Box.height boxA))
    by (apply Hgrow; unfold covers; lia).
  unfold covers in H1, H2. lia.
Qed.

Lemma boxesIntersect_grows_witness :
  boxesIntersect {| Box.left := 0; Box.top := 0; Box.width := 45; Box.height := 45 |}
                 {| Box.left := 20; Box.top := 20; Box.width := 10; Box.height := 10 |}
    = true.
Proof.
  apply (boxesIntersect_grows
           {| Box.left := 0; Box.top := 0; Box.width := 25; Box.height := 25 |}).
  - simpl; lia.
  - simpl; lia.
  - unfold covers; simpl; lia.
  - reflexivity.
Defined.

(** X3.  With a margin, [isWithinTarget] returns, and all four of its
    booleans are true exactly for the points with
    [left <= x <= right] and [top <= y <= bottom]: the bounds are inclusive. *)
Theorem isWithinTarget_all_true_iff_inside (pageX pageY : Z) (m : Margin.t) :
  exists w : Within.t,
    isWithinTarget pageX pageY (Some m) = mret w /\
    (everyTrue w = true <-> inside m pageX pageY).
Proof.
  eexists. split; [apply isWithinTarget_defined|].
  now apply (everyTrue_inside pageX pageY m).
Qed.

(** The margin of a mounted target. *)
Lemma getTargetMargin_mounted p t :
  target_current p = Some t ->
  getTargetMargin p =
  Some {| Margin.top := TargetRect.top t + scrollY p;
          Margin.left := TargetRect.left t + scrollX p;
          Margin.bottom := TargetRect.bottom t + scrollY p;
          Margin.right := TargetRect.right t + scrollX p |}.
Proof. intros Ht. unfold getTargetMargin. now rewrite Ht. Qed.

Lemma inside_dec_true m evt :
  inside_dec m evt = true <->
  inside m (MouseEvent.pageX evt) (MouseEvent.pageY evt).
Proof.
  unfold inside_dec, inside. rewrite !andb_true_iff, !Z.geb_le. lia.
Qed.

(** X4.  A handler uses the margin its render computed.  From a state
    that is not dragging, the [onMouseDown] of a render starts a drag
    exactly when, at that render, [targetRef.current] was set and the
    event's page point lies in the target's rectangle as measured then,
    shifted by the scroll offsets read then (bounds included).  The target
    and the scroll at the time of the press play no part. *)
Theorem drag_starts_iff_in_rendered_target
    (atRender : Page) (s : State) (evt : MouseEvent.t)
    (Hidle : isMouseDown s = false) :
  isMouseDown (applyActions s (performed (onMouseDown (getTargetMargin atRender) evt)))
    = true <->
  exists t, target_current atRender = Some t /\
    TargetRect.left t + scrollX atRender <= MouseEvent.pageX evt
      <= TargetRect.right t + scrollX atRender /\
    TargetRect.top t + scrollY atRender <= MouseEvent.pageY evt
      <= TargetRect.bottom t + scrollY atRender.
Proof.
  destruct (target_current atRender) as [t|] eqn:Ht.
  - rewrite (getTargetMargin_mounted atRender t Ht).
    set (m := {| Margin.top := TargetRect.top t + scrollY atRender;
                 Margin.left := TargetRect.left t + scrollX atRender;
                 Margin.bottom := TargetRect.bottom t + scrollY atRender;
                 Margin.right := TargetRect.right t + scrollX atRender |}).
    pose proof (inside_dec_true m evt) as Hspec. unfold inside in Hspec. cbn in Hspec.
    rewrite onMouseDown_defined. destruct (inside_dec m evt) eqn:Hin; cbn.
    + split; [intros _; exists t; split; [reflexivity | lia] | reflexivity].
    + rewrite Hidle. split; [discriminate|]. intros (t' & [= <-] & Hx & Hy).
      apply Hspec. lia.
  - unfold getTargetMargin. rewrite Ht. cbn. rewrite Hidle.
    split; [discriminate|]. intros (t & [=] & _).
Qed.

Lemma drag_starts_iff_in_rendered_target_witness :
  isMouseDown (applyActions initialState
                 (performed (onMouseDown (getTargetMargin samplePage) (mouseAt 100 0 1))))
    = true <->
  exists t, target_current samplePage = Some t /\
    TargetRect.left t + scrollX samplePage <= MouseEvent.pageX (mouseAt 100 0 1)
      <= TargetRect.right t + scrollX samplePage /\
    TargetRect.top t + scrollY samplePage <= MouseEvent.pageY (mouseAt 100 0 1)
      <= TargetRect.bottom t + scrollY samplePage.
Proof. apply drag_starts_iff_in_rendered_target. reflexivity. Defined.

(** ** Failures and notifications *)

(** The cases of a pointer-down and of a pointer-move, by state and page. *)
Ltac down_cases p s evt :=
  destruct (getTargetMargin p) as [m|] eqn:Hm;
  [ destruct (inside_dec m evt) eqn:Hin;
    [ rewrite (step_MouseDown_inside p m s evt Hm Hin)
    | rewrite (step_MouseDown_outside p m s evt Hm Hin) ]
  | rewrite (step_MouseDown_undefined p s evt Hm) ].

Ltac move_cases p s evt :=
  destruct (isMouseDown s) eqn:Hdown;
  [ destruct (Z.eq_dec (MouseEvent.buttons evt) 0) as [Hb|Hb];
    [ rewrite (step_MouseMove_released p s evt Hdown Hb)
    | destruct (getTargetMargin p) as [m|] eqn:Hm;
      [ destruct (dragStart s) as [a|] eqn:Ha;
        [ rewrite (step_MouseMove_dragging p m s evt a Hm Hdown Hb Ha)
        | rewrite (step_MouseMove_without_start p m s evt Hm Hdown Hb Ha) ]
      | rewrite (step_MouseMove_undefined p s evt Hm Hdown Hb) ] ]
  | rewrite (step_MouseMove_idle p s evt Hdown) ].

(** The cases of [step], by event, state and page. *)
Ltac step_cases p s e :=
  destruct e as [evt|evt|evt|args];
  [ down_cases p s evt
  | move_cases p s evt
  | rewrite (step_MouseUp p s evt)
  | rewrite (step_AddItems p s args) ].

Lemma completion_throws (p : Page) (s : State) (e : Event) :
  completion (handle p s e) = TypeError <->
  getTargetMargin p = None /\
  ((exists evt, e = MouseDown evt) \/
   (exists evt, e = MouseMove evt /\ isMouseDown s = true /\ MouseEvent.buttons evt <> 0)).
Proof.
  assert (Hno : forall (c : Completion unit) (P : Prop),
            c = Returns tt -> ~ P -> (c = TypeError <-> P)).
  { intros c P -> Hcontra. split; [discriminate | intros H; destruct (Hcontra H)]. }
  destruct e as [evt|evt|evt|args].
  - unfold handle. destruct (getTargetMargin p) as [m|].
    + apply Hno; [rewrite onMouseDown_defined; now destruct (inside_dec m evt)|].
      intros [Hnone _]. discriminate.
    + cbn. split; [eauto|reflexivity].
  - unfold handle. destruct (isMouseDown s) eqn:Hdown.
    + destruct (Z.eq_dec (MouseEvent.buttons evt) 0) as [Hb|Hb].
      * apply Hno; [unfold onMouseMove; now rewrite Hdown, Hb|].
        intros [_ [[evt' He]|(evt' & He & _ & Hne)]]; [discriminate|].
        injection He as <-. contradiction.
      * destruct (getTargetMargin p) as [m|].
        -- apply Hno; [now rewrite (onMouseMove_dragging m s evt Hdown Hb)|].
           intros [Hnone _]. discriminate.
        -- rewrite (onMouseMove_undefined s evt Hdown Hb). cbn.
           split; [eauto 8 | reflexivity].
    + apply Hno; [now rewrite (onMouseMove_idle _ s evt Hdown)|].
      intros [_ [[evt' He]|(evt' & _ & Hd & _)]]; discriminate.
  - apply Hno; [reflexivity|].
    intros [_ [[evt' He]|(evt' & He & _)]]; discriminate.
  - apply Hno; [now rewrite handle_AddItems|].
    intros [_ [[evt' He]|(evt' & He & _)]]; discriminate.
Qed.

(** X5.  A handler throws exactly when the margin is [undefined] and the
    event is a pointer-down, or a pointer-move while dragging with a button
    pressed; pointer-up and registration never throw. *)
Theorem handle_throws_iff (p : Page) (s : State) (e : Event) :
  completion (handle p s e) = TypeError <->
  getTargetMargin p = None /\
  ((exists evt, e = MouseDown evt) \/
   (exists evt, e = MouseMove evt /\ isMouseDown s = true /\ MouseEvent.buttons evt <> 0)).
Proof. apply completion_throws. Qed.

(** X6.  When a handler throws, it has only called [preventDefault]: no
    setter was called, so the state is unchanged, the effect does not run
    and nothing is notified. *)
Theorem throw_changes_nothing (p : Page) (s : State) (e : Event)
    (Hthrow : completion (handle p s e) = TypeError) :
  performed (handle p s e) = [PreventDefault] /\ step p s e = (s, []).
Proof.
  apply completion_throws in Hthrow.
  destruct Hthrow as [Hm [[evt ->]|(evt & -> & Hdown & Hb)]].
  - split; [|now apply step_MouseDown_undefined].
    unfold handle. now rewrite Hm.
  - split; [|now apply step_MouseMove_undefined].
    unfold handle. now rewrite Hm, (onMouseMove_undefined s evt Hdown Hb).
Qed.

Lemma throw_changes_nothing_witness :
  performed (handle unmountedPage sampleDrag (MouseMove (mouseAt 5 5 1))) = [PreventDefault] /\
  step unmountedPage sampleDrag (MouseMove (mouseAt 5 5 1)) = (sampleDrag, []).
Proof. apply throw_changes_nothing. reflexivity. Defined.

(** X7.  The effect never throws, and it calls [onSelectionChange] unless
    [dragStart] or [dragEnd] is [null], in which case it does nothing. *)
Theorem selectionEffect_never_throws (p : Page) (r : State) :
  completion (selectionEffect p r) = Returns tt /\
  (dragStart r = None \/ dragEnd r = None -> performed (selectionEffect p r) = []) /\
  (notifications (performed (selectionEffect p r)) = [] <->
   dragStart r = None \/ dragEnd r = None).
Proof.
  destruct (dragStart r) as [a|] eqn:Ha, (dragEnd r) as [b|] eqn:Hb.
  - rewrite (selectionEffect_defined p r a b Ha Hb). cbn.
    split; [reflexivity|]. split; [intros [H|H]; discriminate|].
    split; [discriminate | intros [H|H]; discriminate].
  - rewrite selectionEffect_skips by auto. cbn. split; [|split; [|split]]; auto.
  - rewrite selectionEffect_skips by auto. cbn. split; [|split; [|split]]; auto.
  - rewrite selectionEffect_skips by auto. cbn. split; [|split; [|split]]; auto.
Qed.

(** X8.  An event notifies the caller at most once, always with the set
    that is stored as the new [selectedIndex], and only if it is a
    pointer-move while dragging with a button pressed, a margin and a
    start: pointer-down, pointer-up, the implicit reset and registration
    never call [onSelectionChange]. *)
Theorem notified_only_by_accepted_move (p : Page) (s : State) (e : Event) :
  notified p s e = [] \/
  (notified p s e = [selectedIndex (stateAfter p s e)] /\
   exists evt, e = MouseMove evt /\ isMouseDown s = true /\
     MouseEvent.buttons evt <> 0 /\
     is_Some (getTargetMargin p) /\ is_Some (dragStart s)).
Proof.
  unfold notified, stateAfter. step_cases p s e; cbn [fst snd]; auto.
  right. split; [reflexivity|]. exists evt. eauto 10.
Qed.

(** ** Moves *)

Lemma orElse_again o b : orElse (Some (orElse o b)) b = orElse o b.
Proof.
  destruct o as [v|]; cbn.
  - destruct (v =? 0) eqn:Hv; cbn; [now destruct (b =? 0) | now rewrite Hv].
  - now destruct (b =? 0).
Qed.

(** The end of an accepted move, computed again from itself, is itself. *)
Lemma nextEnd_again m r r' evt :
  dragEnd r' = Some (nextEnd m r evt) -> nextEnd m r' evt = nextEnd m r evt.
Proof.
  intros Hend. unfold nextEnd at 1. rewrite Hend. cbn [fmap option_fmap option_map].
  unfold nextEnd. cbn [Point.x Point.y].
  destruct (_ && _), (_ && _); try reflexivity; now rewrite ?orElse_again.
Qed.

(** The loop run again from its own result changes nothing. *)
Lemma forEachItem_again p box sel its :
  let newIndexes := forEachItem p box sel 0%nat its sel in
  forEachItem p box newIndexes 0%nat its newIndexes = newIndexes.
Proof.
  intros newIndexes. apply set_eq. intros i.
  rewrite (forEachItem_selected p box newIndexes its i).
  destruct (its !! i) eqn:Hi; [|reflexivity].
  unfold newIndexes. now rewrite (forEachItem_selected p box sel its i), Hi.
Qed.

(** X9.  A pointer-move is idempotent: the same move event handled twice in
    a row, on the same page, leaves the state of the first and notifies the
    same. *)
Theorem move_twice_is_move_once (p : Page) (s : State) (evt : MouseEvent.t) :
  step p (stateAfter p s (MouseMove evt)) (MouseMove evt) = step p s (MouseMove evt).
Proof.
  unfold stateAfter. destruct (isMouseDown s) eqn:Hdown.
  - destruct (Z.eq_dec (MouseEvent.buttons evt) 0) as [Hb|Hb].
    + rewrite (step_MouseMove_released p s evt Hdown Hb). cbn [fst].
      now rewrite step_MouseMove_idle.
    + destruct (getTargetMargin p) as [m|] eqn:Hm.
      * destruct (dragStart s) as [a|] eqn:Ha.
        -- rewrite (step_MouseMove_dragging p m s evt a Hm Hdown Hb Ha). cbn [fst].
           rewrite (step_MouseMove_dragging p m _ evt a Hm) by (cbn; trivial).
           cbn [dragEnd selectedIndex items showSelection].
           rewrite (nextEnd_again m s _ evt) by reflexivity.
           now rewrite forEachItem_again.
        -- rewrite (step_MouseMove_without_start p m s evt Hm Hdown Hb Ha). cbn [fst].
           rewrite (step_MouseMove_without_start p m _ evt Hm) by (cbn; trivial).
           cbn [dragEnd selectedIndex items showSelection selectionBox].
           now rewrite (nextEnd_again m s _ evt) by reflexivity.
      * rewrite (step_MouseMove_undefined p s evt Hm Hdown Hb). cbn [fst].
        now apply step_MouseMove_undefined.
  - rewrite (step_MouseMove_idle p s evt Hdown). cbn [fst].
    now apply step_MouseMove_idle.
Qed.

(** X10.  The first accepted move of a drag, when there is no end yet, sets
    the end to the event's own client point, whether or not that point is
    within the margin. *)
Theorem first_move_takes_event_point
    (p : Page) (m : Margin.t) (s : State) (evt : MouseEvent.t)
    (Hm : getTargetMargin p = Some m) (Hdown : isMouseDown s = true)
    (Hpressed : MouseEvent.buttons evt <> 0) (Hend : dragEnd s = None) :
  dragEnd (stateAfter p s (MouseMove evt)) =
  Some {| Point.x := MouseEvent.clientX evt; Point.y := MouseEvent.clientY evt |}.
Proof.
  assert (Hnext : nextEnd m s evt =
            {| Point.x := MouseEvent.clientX evt; Point.y := MouseEvent.clientY evt |}).
  { unfold nextEnd. rewrite Hend. cbn. now destruct (_ && _), (_ && _). }
  unfold stateAfter. destruct (dragStart s) as [a|] eqn:Ha.
  - rewrite (step_MouseMove_dragging p m s evt a Hm Hdown Hpressed Ha). cbn.
    now rewrite Hnext.
  - rewrite (step_MouseMove_without_start p m s evt Hm Hdown Hpressed Ha). cbn.
    now rewrite Hnext.
Qed.

Lemma first_move_takes_event_point_witness :
  dragEnd (stateAfter samplePage
             (stateAfter samplePage initialState (MouseDown (mouseAt 50 50 1)))
             (MouseMove (mouseAt 150 (-20) 1)))
  = Some {| Point.x := 150; Point.y := -20 |}.
Proof.
  apply (first_move_takes_event_point samplePage
           {| Margin.top := 0; Margin.left := 0; Margin.bottom := 100; Margin.right := 100 |}
           _ (mouseAt 150 (-20) 1)).
  - reflexivity.
  - reflexivity.
  - discriminate.
  - reflexivity.
Defined.

(** X11.  Clamping: when the previous end lies within the margin and none
    of its coordinates is 0, the end after an accepted move lies within the
    margin too; each of its coordinates is the event's if the event is
    within the bounds of that axis and the previous end's otherwise. *)
Theorem clamped_end_stays_inside
    (p : Page) (m : Margin.t) (s : State) (evt : MouseEvent.t) (e0 : Point.t)
    (Hm : getTargetMargin p = Some m) (Hdown : isMouseDown s = true)
    (Hpressed : MouseEvent.buttons evt <> 0) (Hend : dragEnd s = Some e0)
    (Hx : Point.x e0 <> 0) (Hy : Point.y e0 <> 0)
    (Hinside : inside m (Point.x e0) (Point.y e0)) :
  exists e, dragEnd (stateAfter p s (MouseMove evt)) = Some e /\
    inside m (Point.x e) (Point.y e) /\
    Point.x e = (if decide (Margin.left m <= MouseEvent.clientX evt <= Margin.right m)
                 then MouseEvent.clientX evt else Point.x e0) /\
    Point.y e = (if decide (Margin.top m <= MouseEvent.clientY evt <= Margin.bottom m)
                 then MouseEvent.clientY evt else Point.y e0).
Proof.
  exists (nextEnd m s evt). split.
  - unfold stateAfter. destruct (dragStart s) as [a|] eqn:Ha.
    + now rewrite (step_MouseMove_dragging p m s evt a Hm Hdown Hpressed Ha).
    + now rewrite (step_MouseMove_without_start p m s evt Hm Hdown Hpressed Ha).
  - unfold nextEnd, inside in *. rewrite Hend.
    cbn [fmap option_fmap option_map Point.x Point.y].
    rewrite !orElse_previous by assumption.
    destruct (_ - Margin.left m >=? 0) eqn:H1, (Margin.right m - _ >=? 0) eqn:H2,
      (_ - Margin.top m >=? 0) eqn:H3, (Margin.bottom m - _ >=? 0) eqn:H4;
      cbn [andb];
      rewrite ?Z.geb_le in *; rewrite <- ?not_true_iff_false, ?Z.geb_le in *;
      repeat case_decide; repeat split; lia.
Qed.

Lemma clamped_end_stays_inside_witness :
  exists e, dragEnd (stateAfter samplePage sampleDrag (MouseMove (mouseAt 150 60 1))) = Some e /\
    inside {| Margin.top := 0; Margin.left := 0; Margin.bottom := 100; Margin.right := 100 |}
      (Point.x e) (Point.y e) /\
    Point.x e = 30 /\ Point.y e = 60.
Proof.
  destruct (clamped_end_stays_inside samplePage
              {| Margin.top := 0; Margin.left := 0; Margin.bottom := 100; Margin.right := 100 |}
              sampleDrag (mouseAt 150 60 1) {| Point.x := 30; Point.y := 40 |})
    as (e & He & Hin & Hx & Hy).
  - reflexivity.
  - reflexivity.
  - discriminate.
  - reflexivity.
  - discriminate.
  - discriminate.
  - unfold inside; simpl; lia.
  - exists e. repeat split; try assumption; apply Hin.
Defined.

(** X12.  A pointer-move never moves the start: whenever the hook is
    dragging after a move, [dragStart] is what it was before. *)
Theorem move_keeps_start (p : Page) (s : State) (evt : MouseEvent.t)
    (Hdragging : isMouseDown (stateAfter p s (MouseMove evt)) = true) :
  dragStart (stateAfter p s (MouseMove evt)) = dragStart s.
Proof.
  revert Hdragging. unfold stateAfter.
  move_cases p s evt; cbn [fst isMouseDown dragStart];
    try discriminate; try congruence.
Qed.

Lemma move_keeps_start_witness :
  dragStart (stateAfter samplePage sampleDrag (MouseMove (mouseAt 150 60 1))) =
  dragStart sampleDrag.
Proof. apply move_keeps_start. reflexivity. Defined.

(** ** The registry over time *)

Lemma items_stateAfter p s e :
  items (stateAfter p s e) =
  items s ++ match e with AddItems args => appended s args | _ => [] end.
Proof.
  unfold stateAfter. step_cases p s e; cbn [fst items cleared];
    now rewrite ?app_nil_r.
Qed.

(** X13.  Items are never removed or reordered: whatever events follow, on
    whatever pages, an item registered at an index stays at that index. *)
Theorem registered_items_keep_index
    (trace : list (Page * Event)) (s : State) (i : nat) (it : Item)
    (Hit : items s !! i = Some it) :
  items (stateAfterAll s trace) !! i = Some it.
Proof.
  revert s Hit. induction trace as [|[p e] trace IH]; intros s Hit; [exact Hit|].
  cbn [stateAfterAll fold_left fst snd]. apply IH.
  rewrite items_stateAfter. now apply lookup_app_l_Some.
Qed.

Lemma registered_items_keep_index_witness :
  items (stateAfterAll sampleRegistered
           [(samplePage, MouseDown (mouseAt 0 0 1));
            (samplePage, AddItems [Some 9%nat; None; Some 1%nat]);
            (samplePage, MouseMove (mouseAt 25 25 1));
            (unmountedPage, MouseUp (mouseAt 25 25 0))]) !! 1%nat = Some 1%nat.
Proof. apply registered_items_keep_index. reflexivity. Defined.

Lemma appended_elem r args it :
  it ∈ appended r args <-> Some it ∈ args /\ it ∉ items r.
Proof.
  induction args as [|[it'|] args IH]; cbn [appended].
  - rewrite !elem_of_nil. tauto.
  - case_bool_decide as Hseen; rewrite ?elem_of_cons, IH; split.
    + intros [Hin Hnew]. auto.
    + intros [[[= ->]|Hin] Hnew]; [contradiction | auto].
    + intros [->|[Hin Hnew]]; auto.
    + intros [[[= ->]|Hin] Hnew]; auto.
  - rewrite elem_of_cons, IH. split.
    + intros [Hin Hnew]. auto.
    + intros [[[=]|Hin] Hnew]. auto.
Qed.

Lemma appended_NoDup r args : NoDup (omap id args) -> NoDup (appended r args).
Proof.
  induction args as [|[it|] args IH]; cbn [appended omap list_omap]; [constructor| |exact IH].
  cbn [id]. intros Hnodup. apply NoDup_cons in Hnodup as [Hnew Hnodup].
  case_bool_decide; [now apply IH|].
  apply NoDup_cons. split; [|now apply IH].
  intros [Hin _]%appended_elem. apply Hnew.
  apply list_elem_of_omap. exists (Some it). auto.
Qed.

(** X14.  Registration through the [addItem] of an up-to-date render keeps
    the registry free of duplicates, as long as the non-null arguments of
    the calls are pairwise distinct. *)
Theorem registration_keeps_distinct
    (p : Page) (s : State) (args : list (option Item))
    (Hitems : NoDup (items s)) (Hargs : NoDup (omap id args)) :
  NoDup (items (stateAfter p s (AddItems args))).
Proof.
  rewrite items_stateAfter. apply NoDup_app. split; [exact Hitems|]. split.
  - intros it Hin [_ Hnew]%appended_elem. contradiction.
  - now apply appended_NoDup.
Qed.

Lemma registration_keeps_distinct_witness :
  NoDup (items (stateAfter samplePage sampleRegistered
                  (AddItems [Some 1%nat; None; Some 9%nat; Some 0%nat; Some 8%nat]))).
Proof.
  apply registration_keeps_distinct.
  - apply (bool_decide_unpack _). vm_compute. exact I.
  - apply (bool_decide_unpack _). vm_compute. exact I.
Defined.

(** X15.  [addItem] appends and observes exactly the non-null arguments that
    the [items] of its render do not hold; a [null] argument and an item the
    render already holds are neither appended nor observed. *)
Theorem addItem_observes_what_it_appends
    (p : Page) (r : State) (args : list (option Item)) (it : Item) :
  (SetItemsAppend it ∈ performed (handle p r (AddItems args)) <->
     Some it ∈ args /\ it ∉ items r) /\
  (Observe it ∈ performed (handle p r (AddItems args)) <->
     Some it ∈ args /\ it ∉ items r).
Proof.
  rewrite handle_AddItems. cbn [performed fst]. rewrite <- appended_elem.
  rewrite !list_elem_of_In, !in_flat_map. split; split.
  - intros (it' & Hin & [[= ->]|[[=]|[]]]). exact Hin.
  - intros Hin. exists it. cbn. auto.
  - intros (it' & Hin & [[=]|[[= ->]|[]]]). exact Hin.
  - intros Hin. exists it. cbn. auto.
Qed.

(** X16.  Registration leaves the drag alone: it changes no cell but
    [items], does not run the effect and notifies nobody; in a reachable
    state the indices of the newly registered items are therefore not
    selected, wherever their boxes are, until the next accepted move. *)
Theorem registration_selects_nothing
    (p : Page) (s : State) (args : list (option Item)) (i : nat)
    (Hreach : reachable s) (Hnew : (length (items s) <= i)%nat) :
  dragStart (stateAfter p s (AddItems args)) = dragStart s /\
  dragEnd (stateAfter p s (AddItems args)) = dragEnd s /\
  isMouseDown (stateAfter p s (AddItems args)) = isMouseDown s /\
  selectionBox (stateAfter p s (AddItems args)) = selectionBox s /\
  showSelection (stateAfter p s (AddItems args)) = showSelection s /\
  selectedIndex (stateAfter p s (AddItems args)) = selectedIndex s /\
  notified p s (AddItems args) = [] /\
  i ∉ selectedIndex (stateAfter p s (AddItems args)).
Proof.
  unfold stateAfter, notified. rewrite step_AddItems. cbn [fst snd].
  repeat split. cbn [selectedIndex].
  intros Hi. apply (selected_registered s (reachable_consistent s Hreach)) in Hi. lia.
Qed.

Lemma registration_selects_nothing_witness :
  selectedIndex (stateAfter samplePage sampleDragAB (AddItems [Some 1%nat; Some 9%nat]))
    = selectedIndex sampleDragAB /\
  3%nat ∉ selectedIndex (stateAfter samplePage sampleDragAB (AddItems [Some 1%nat; Some 9%nat])).
Proof.
  destruct (registration_selects_nothing samplePage sampleDragAB
              [Some 1%nat; Some 9%nat] 3%nat)
    as (_ & _ & _ & _ & _ & Hsel & _ & Hnot).
  - do 3 apply reachable_step. apply reachable_initial.
  - vm_compute. lia.
  - split; assumption.
Defined.

(** ** The drag cells of a reachable state *)

Lemma spanned_normalized a b :
  0 <= Box.width (spanned a b) /\ 0 <= Box.height (spanned a b).
Proof. cbn. lia. Qed.

Lemma coherent_cleared its : coherent (cleared its).
Proof. split; cbn; try discriminate; auto. Qed.

Lemma coherent_step p s e : consistent s -> coherent s -> coherent (stateAfter p s e).
Proof.
  intros [_ Hstarted _] [Hshown Hrect Hnoend Hnorm]. unfold stateAfter.
  step_cases p s e; cbn [fst]; try apply coherent_cleared; try (now split).
  - split; cbn; try discriminate; [congruence | |].
    + intros e [= <-]. eauto.
    + intros box [= <-]. apply spanned_normalized.
  - now destruct (Hstarted eq_refl) as [a [=]].
  - split; auto; congruence.
  - split; auto; congruence.
Qed.

Lemma reachable_coherent s : reachable s -> coherent s.
Proof.
  induction 1 as [|p s e Hreach IH].
  - apply (coherent_cleared []).
  - apply coherent_step; [now apply reachable_consistent | exact IH].
Qed.

(** The render between a handler and its effect is the state after the
    event, unless the event is an accepted move of a drag with a start: then
    only [dragEnd] is new, and the effect has yet to run. *)
Lemma pendingRender_cases p s e :
  pendingRender p s e = stateAfter p s e \/
  exists evt m a,
    e = MouseMove evt /\ getTargetMargin p = Some m /\
    isMouseDown s = true /\ MouseEvent.buttons evt <> 0 /\ dragStart s = Some a /\
    pendingRender p s e =
      {| dragStart := Some a; dragEnd := Some (nextEnd m s evt); isMouseDown := true;
         selectionBox := selectionBox s; showSelection := showSelection s;
         selectedIndex := selectedIndex s; items := items s |}.
Proof.
  unfold pendingRender, stateAfter. destruct e as [evt|evt|evt|args].
  - left. down_cases p s evt; unfold handle; rewrite Hm;
      rewrite ?onMouseDown_defined, ?Hin; reflexivity.
  - destruct (isMouseDown s) eqn:Hdown.
    + destruct (Z.eq_dec (MouseEvent.buttons evt) 0) as [Hb|Hb].
      * left. rewrite (step_MouseMove_released p s evt Hdown Hb).
        unfold handle, onMouseMove. now rewrite Hdown, Hb.
      * destruct (getTargetMargin p) as [m|] eqn:Hm.
        -- destruct (dragStart s) as [a|] eqn:Ha.
           ++ right. exists evt, m, a. repeat split; try assumption.
              unfold handle. rewrite Hm, (onMouseMove_dragging m s evt Hdown Hb).
              cbn. now rewrite Hdown, Ha.
           ++ left. rewrite (step_MouseMove_without_start p m s evt Hm Hdown Hb Ha).
              unfold handle. rewrite Hm, (onMouseMove_dragging m s evt Hdown Hb).
              cbn. now rewrite Hdown, Ha.
        -- left. rewrite (step_MouseMove_undefined p s evt Hm Hdown Hb).
           unfold handle. rewrite Hm, (onMouseMove_undefined s evt Hdown Hb).
           reflexivity.
    + left. rewrite (step_MouseMove_idle p s evt Hdown).
      unfold handle. now rewrite (onMouseMove_idle _ s evt Hdown).
  - left. reflexivity.
  - left. rewrite step_AddItems, handle_AddItems. cbn [performed fst].
    now rewrite applyActions_appends.
Qed.

(** What holds of every committed render, settled or pending. *)
Lemma rendered_shown r :
  rendered r ->
  showSelection r = isMouseDown r /\
  (isMouseDown r = false -> selectionBox r = None) /\
  (forall box, selectionBox r = Some box -> 0 <= Box.width box /\ 0 <= Box.height box).
Proof.
  assert (Hsettled : forall s, reachable s ->
            showSelection s = isMouseDown s /\
            (isMouseDown s = false -> selectionBox s = None) /\
            (forall box, selectionBox s = Some box ->
               0 <= Box.width box /\ 0 <= Box.height box)).
  { intros s Hreach.
    pose proof (reachable_consistent s Hreach) as [Hidle _ _].
    pose proof (reachable_coherent s Hreach) as [Hshown _ _ Hnorm].
    split; [exact Hshown|]. split; [|exact Hnorm].
    intros Hd. now rewrite (Hidle Hd). }
  intros [s Hreach|p s e Hreach]; [now apply Hsettled|].
  destruct (pendingRender_cases p s e) as [->|(evt & m & a & _ & _ & Hdown & _ & _ & ->)].
  - apply Hsettled. now apply reachable_step.
  - destruct (Hsettled s Hreach) as (Hshown & _ & Hnorm). cbn.
    split; [congruence|]. split; [discriminate | exact Hnorm].
Qed.

(** X17.  In every reachable state the drag box is shown exactly while
    dragging, a start is set exactly while dragging, and an end exists only
    while dragging. *)
Theorem shown_and_started_iff_dragging (s : State) (Hreach : reachable s) :
  showSelection s = isMouseDown s /\
  (is_Some (dragStart s) <-> isMouseDown s = true) /\
  (is_Some (dragEnd s) -> isMouseDown s = true).
Proof.
  pose proof (reachable_consistent s Hreach) as [Hidle Hstarted _].
  pose proof (reachable_coherent s Hreach) as [Hshown _ _ _].
  split; [exact Hshown|].
  destruct (isMouseDown s).
  - split; [split; auto | auto].
  - rewrite (Hidle eq_refl). cbn.
    split; [split; [intros [? [=]] | discriminate] | intros [? [=]]].
Qed.

Lemma shown_and_started_iff_dragging_witness :
  showSelection sampleDragAB = isMouseDown sampleDragAB /\
  (is_Some (dragStart sampleDragAB) <-> isMouseDown sampleDragAB = true) /\
  (is_Some (dragEnd sampleDragAB) -> isMouseDown sampleDragAB = true).
Proof.
  apply shown_and_started_iff_dragging.
  do 3 apply reachable_step. apply reachable_initial.
Defined.

(** X18.  In every committed render with an end there is a start.  Between
    events, once the handler and the effect it triggers have run, the
    stored rectangle is the one spanned by the stored start and end.  The
    one render where it is not is the render committed between the
    [setDragEnd] of an accepted move and the effect: there [dragEnd] is the
    new end while [selectionBox] is still that of the state before the
    move, and the effect of that render then stores the spanned rectangle. *)
Theorem stored_rectangle_matches_points
    (r : State) (e : Point.t) (Hr : rendered r) (Hend : dragEnd r = Some e) :
  exists a, dragStart r = Some a /\
    (reachable r ->
       selectionBox r =
       Some {| Box.left := Z.min (Point.x a) (Point.x e);
               Box.top := Z.min (Point.y a) (Point.y e);
               Box.width := Z.abs (Point.x a - Point.x e);
               Box.height := Z.abs (Point.y a - Point.y e) |}) /\
    (selectionBox r =
       Some {| Box.left := Z.min (Point.x a) (Point.x e);
               Box.top := Z.min (Point.y a) (Point.y e);
               Box.width := Z.abs (Point.x a - Point.x e);
               Box.height := Z.abs (Point.y a - Point.y e) |} \/
     exists p s evt,
       reachable s /\ r = pendingRender p s (MouseMove evt) /\
       selectionBox r = selectionBox s /\
       dragStart (stateAfter p s (MouseMove evt)) = Some a /\
       dragEnd (stateAfter p s (MouseMove evt)) = Some e /\
       selectionBox (stateAfter p s (MouseMove evt)) =
       Some {| Box.left := Z.min (Point.x a) (Point.x e);
               Box.top := Z.min (Point.y a) (Point.y e);
               Box.width := Z.abs (Point.x a - Point.x e);
               Box.height := Z.abs (Point.y a - Point.y e) |}).
Proof.
  assert (Hsettled : forall s, reachable s -> dragEnd s = Some e ->
            exists a, dragStart s = Some a /\
              (reachable s -> selectionBox s = Some (spanned a e)) /\
              (selectionBox s = Some (spanned a e) \/
               exists p s' evt,
                 reachable s' /\ s = pendingRender p s' (MouseMove evt) /\
                 selectionBox s = selectionBox s' /\
                 dragStart (stateAfter p s' (MouseMove evt)) = Some a /\
                 dragEnd (stateAfter p s' (MouseMove evt)) = Some e /\
                 selectionBox (stateAfter p s' (MouseMove evt)) = Some (spanned a e))).
  { intros s Hreach He.
    destruct (end_has_rectangle s (reachable_coherent s Hreach) e He) as (a & Ha & Hbox).
    exists a. auto. }
  destruct Hr as [s Hreach|p s e0 Hreach]; [now apply Hsettled|].
  destruct (pendingRender_cases p s e0)
    as [Heq|(evt & m & a & -> & Hm & Hdown & Hb & Ha & Heq)].
  - rewrite Heq in *. apply Hsettled; [now apply reachable_step | exact Hend].
  - rewrite Heq in Hend. cbn in Hend. injection Hend as <-.
    exists a. split; [now rewrite Heq|]. split.
    + intros Hreach'.
      destruct (end_has_rectangle _ (reachable_coherent _ Hreach') (nextEnd m s evt))
        as (a' & Ha' & Hbox); [now rewrite Heq|].
      rewrite Heq in Ha'. cbn in Ha'. injection Ha' as <-. exact Hbox.
    + right. exists p, s, evt. unfold stateAfter.
      rewrite (step_MouseMove_dragging p m s evt a Hm Hdown Hb Ha).
      repeat split; [exact Hreach | now rewrite Heq].
Qed.

Lemma stored_rectangle_matches_points_witness :
  (exists a, dragStart sampleDragAB = Some a /\
     selectionBox sampleDragAB =
     Some {| Box.left := Z.min (Point.x a) 25; Box.top := Z.min (Point.y a) 25;
             Box.width := Z.abs (Point.x a - 25); Box.height := Z.abs (Point.y a - 25) |}) /\
  (exists a,
     dragStart (pendingRender samplePage sampleDragAB (MouseMove (mouseAt 45 45 1))) = Some a).
Proof.
  split.
  - destruct (stored_rectangle_matches_points sampleDragAB {| Point.x := 25; Point.y := 25 |})
      as (a & Ha & Hbox & _).
    + apply rendered_settled. do 3 apply reachable_step. apply reachable_initial.
    + reflexivity.
    + exists a. split; [exact Ha|]. apply Hbox.
      do 3 apply reachable_step. apply reachable_initial.
  - destruct (stored_rectangle_matches_points
                (pendingRender samplePage sampleDragAB (MouseMove (mouseAt 45 45 1)))
                {| Point.x := 45; Point.y := 45 |})
      as (a & Ha & _).
    + apply rendered_pending. do 3 apply reachable_step. apply reachable_initial.
    + reflexivity.
    + exists a. exact Ha.
Defined.

(** X19.  In every reachable state the stored rectangle, if any, has
    non-negative width and height, also the one left over when a new drag
    starts before the previous one was released. *)
Theorem stored_rectangle_normalized
    (s : State) (box : Box.t) (Hreach : reachable s) (Hbox : selectionBox s = Some box) :
  0 <= Box.width box /\ 0 <= Box.height box.
Proof. exact (rectangle_normalized s (reachable_coherent s Hreach) box Hbox). Qed.

Lemma stored_rectangle_normalized_witness :
  0 <= Box.width {| Box.left := 0; Box.top := 0; Box.width := 25; Box.height := 25 |} /\
  0 <= Box.height {| Box.left := 0; Box.top := 0; Box.width := 25; Box.height := 25 |}.
Proof.
  apply (stored_rectangle_normalized
           (stateAfter samplePage sampleDragAB (MouseDown (mouseAt 60 60 1)))).
  - do 4 apply reachable_step. apply reachable_initial.
  - reflexivity.
Defined.

(** X20.  In every reachable state without an end (idle, or dragging before
    the first accepted move) the selected set is empty. *)
Theorem no_selection_without_end
    (s : State) (Hreach : reachable s) (Hend : dragEnd s = None) :
  selectedIndex s = ∅.
Proof. exact (no_end_no_selection s (reachable_coherent s Hreach) Hend). Qed.

Lemma no_selection_without_end_witness :
  selectedIndex (stateAfter samplePage sampleDragAB (MouseDown (mouseAt 60 60 1))) = ∅.
Proof.
  apply no_selection_without_end.
  - do 4 apply reachable_step. apply reachable_initial.
  - reflexivity.
Defined.

(** X21.  After an accepted move in a reachable state, the selected set is
    exactly the set of indices of the registered items whose current box
    intersects the rectangle spanned by the start and the new end, whatever
    was selected before. *)
Theorem selected_are_the_intersecting
    (p : Page) (m : Margin.t) (s : State) (evt : MouseEvent.t)
    (Hreach : reachable s)
    (Hm : getTargetMargin p = Some m) (Hdown : isMouseDown s = true)
    (Hpressed : MouseEvent.buttons evt <> 0) :
  exists a e,
    dragStart (stateAfter p s (MouseMove evt)) = Some a /\
    dragEnd (stateAfter p s (MouseMove evt)) = Some e /\
    forall i : nat,
      i ∈ selectedIndex (stateAfter p s (MouseMove evt)) <->
      exists it, items (stateAfter p s (MouseMove evt)) !! i = Some it /\
        boxesIntersect (spanned a e) (getBoundingClientRect p it) = true.
Proof.
  pose proof (reachable_consistent s Hreach) as [_ Hstarted Hsel].
  destruct (Hstarted Hdown) as [a Ha].
  exists a, (nextEnd m s evt). unfold stateAfter.
  rewrite (step_MouseMove_dragging p m s evt a Hm Hdown Hpressed Ha).
  cbn [fst dragStart dragEnd selectedIndex items].
  split; [reflexivity|]. split; [reflexivity|].
  intros i. rewrite forEachItem_selected.
  destruct (items s !! i) as [it|] eqn:Hit.
  - split; [eauto|]. now intros (it' & [= <-] & Hint).
  - split; [|now intros (it' & [=] & _)].
    intros Hi%Hsel. apply lookup_ge_None in Hit. lia.
Qed.

Lemma selected_are_the_intersecting_witness :
  exists a e,
    dragStart (stateAfter samplePage sampleDragAB (MouseMove (mouseAt 45 45 1))) = Some a /\
    dragEnd (stateAfter samplePage sampleDragAB (MouseMove (mouseAt 45 45 1))) = Some e.
Proof.
  destruct (selected_are_the_intersecting samplePage
              {| Margin.top := 0; Margin.left := 0; Margin.bottom := 100; Margin.right := 100 |}
              sampleDragAB (mouseAt 45 45 1)) as (a & e & Ha & He & _).
  - do 3 apply reachable_step. apply reachable_initial.
  - reflexivity.
  - reflexivity.
  - discriminate.
  - exists a, e. split; assumption.
Defined.

(** ** The rendered style *)

(** X22.  In every committed render the style of the drag box has the fixed
    position, z-index and border; it is [display: none] without geometry
    when idle and [display: inline-block] while dragging; its geometry is
    the stored [selectionBox], of non-negative width and height.  Between
    events, once the effect has run, that is the rectangle spanned by start
    and end whenever there is an end; in the render committed between an
    accepted move and its effect it is still the previous rectangle. *)
Theorem selectionStyles_follow_drag (r : State) (Hr : rendered r) :
  position (selectionStyles r) = "absolute" /\
  zIndex (selectionStyles r) = 100 /\
  border (selectionStyles r) = "1px solid red" /\
  (isMouseDown r = false ->
     display (selectionStyles r) = "none" /\ geometry (selectionStyles r) = None) /\
  (isMouseDown r = true -> display (selectionStyles r) = "inline-block") /\
  geometry (selectionStyles r) = selectionBox r /\
  (forall box, geometry (selectionStyles r) = Some box ->
     0 <= Box.width box /\ 0 <= Box.height box) /\
  (reachable r -> forall e, dragEnd r = Some e ->
     exists a, dragStart r = Some a /\
       geometry (selectionStyles r) = Some (spanned a e)) /\
  (forall p s evt,
     isMouseDown s = true -> MouseEvent.buttons evt <> 0 ->
     r = pendingRender p s (MouseMove evt) ->
     geometry (selectionStyles r) = geometry (selectionStyles s)).
Proof.
  destruct (rendered_shown r Hr) as (Hshown & Hidle & Hnorm).
  assert (Hgeo : forall s, geometry (selectionStyles s) = selectionBox s).
  { intros s. unfold selectionStyles. now destruct (selectionBox s). }
  split; [unfold selectionStyles; now destruct (selectionBox r)|].
  split; [unfold selectionStyles; now destruct (selectionBox r)|].
  split; [unfold selectionStyles; now destruct (selectionBox r)|].
  split; [|split; [|split; [apply Hgeo|split; [rewrite Hgeo; exact Hnorm|split]]]].
  - intros Hd. rewrite Hgeo, (Hidle Hd). split; [|reflexivity].
    unfold selectionStyles. now rewrite Hshown, Hd, (Hidle Hd).
  - intros Hd. unfold selectionStyles. rewrite Hshown, Hd.
    now destruct (selectionBox r).
  - intros Hreach e He. rewrite Hgeo.
    exact (end_has_rectangle r (reachable_coherent r Hreach) e He).
  - intros p s evt Hdown Hb ->. rewrite !Hgeo. unfold pendingRender, handle.
    destruct (getTargetMargin p) as [m|].
    + now rewrite (onMouseMove_dragging m s evt Hdown Hb).
    + now rewrite (onMouseMove_undefined s evt Hdown Hb).
Qed.

Lemma selectionStyles_follow_drag_witness :
  display (selectionStyles
             (pendingRender samplePage sampleDragAB (MouseMove (mouseAt 45 45 1))))
    = "inline-block" /\
  geometry (selectionStyles sampleDragAB) =
    Some {| Box.left := 0; Box.top := 0; Box.width := 25; Box.height := 25 |}.
Proof.
  split.
  - destruct (selectionStyles_follow_drag
                (pendingRender samplePage sampleDragAB (MouseMove (mouseAt 45 45 1))))
      as (_ & _ & _ & _ & Hshown & _).
    + apply rendered_pending. do 3 apply reachable_step. apply reachable_initial.
    + apply Hshown. reflexivity.
  - destruct (selectionStyles_follow_drag sampleDragAB) as (_ & _ & _ & _ & _ & Hgeo & _).
    + apply rendered_settled. do 3 apply reachable_step. apply reachable_initial.
    + rewrite Hgeo. reflexivity.
Defined.

(** ** The rectangle of the effect *)

(** X23.  [calculateSelectionBox] calls no setter; it throws exactly when
    the render has no [dragStart] or no [dragEnd]; and whenever it returns,
    the box has non-negative width and height and does not depend on the
    order of the two arguments. *)
Theorem calculateSelectionBox_returns_iff_points (r : State) (a b : Point.t) :
  performed (calculateSelectionBox r a b) = [] /\
  (completion (calculateSelectionBox r a b) = TypeError <->
     dragStart r = None \/ dragEnd r = None) /\
  (forall box, calculateSelectionBox r a b = mret box ->
     0 <= Box.width box /\ 0 <= Box.height box /\
     calculateSelectionBox r b a = mret box).
Proof.
  split; [|split].
  - unfold calculateSelectionBox.
    now destruct (dragStart r), (dragEnd r).
  - unfold calculateSelectionBox.
    destruct (dragStart r), (dragEnd r); cbn;
      (split; [try discriminate; auto | try reflexivity; intros [H|H]; discriminate]).
  - intros box. apply calculateSelectionBox_extent.
Qed.

(** X24.  In the effect, where the arguments are the render's own start and
    end, the rectangle has the two points as opposite corners: it covers
    exactly the points whose coordinates lie between theirs. *)
Theorem effect_rectangle_spans_points (r : State) (a b : Point.t)
    (Ha : dragStart r = Some a) (Hb : dragEnd r = Some b) :
  exists box, calculateSelectionBox r a b = mret box /\
    covers box (Point.x a) (Point.y a) /\
    covers box (Point.x b) (Point.y b) /\
    forall px py, covers box px py <->
      Z.min (Point.x a) (Point.x b) <= px <= Z.max (Point.x a) (Point.x b) /\
      Z.min (Point.y a) (Point.y b) <= py <= Z.max (Point.y a) (Point.y b).
Proof.
  exists (spanned a b). split; [now apply calculateSelectionBox_of_render|].
  unfold covers, spanned. cbn. repeat split; lia.
Qed.

Lemma effect_rectangle_spans_points_witness :
  exists box,
    calculateSelectionBox sampleDrag {| Point.x := 1; Point.y := 2 |}
      {| Point.x := 30; Point.y := 40 |} = mret box /\
    covers box 1 2 /\ covers box 30 40.
Proof.
  destruct (effect_rectangle_spans_points sampleDrag {| Point.x := 1; Point.y := 2 |}
              {| Point.x := 30; Point.y := 40 |}) as (box & Hbox & Ha & Hb & _).
  - reflexivity.
  - reflexivity.
  - exists box. repeat split; try assumption; try apply Ha; apply Hb.
Defined.
